(** * hackatalk-server: the user resolvers, embedded and verified

    The development follows [src/resolvers/user.ts]: the helper functions
    [hasUser], [isSignedIn], [isSignedInBySocial], [getOrSignUp], [signIn],
    the four mutations and the two subscriptions.  The resolvers are
    dynamically typed JavaScript that runs against an injected context
    ([models], [pubsub], [getUser], [appSecret]); the embedding keeps that
    shape: a small universe of JavaScript values, a state-and-exception monad
    for the resolver bodies, and records for the injected collaborators. *)

From Stdlib Require Import String Ascii List Bool Arith ZArith Lia.
From Stdlib Require Import DecimalString.
Import ListNotations.
Open Scope string_scope.

Set Implicit Arguments.
Set Warnings "-register-all".

(** ** JavaScript values *)

(** The values the resolvers handle.  A [VPromise] is a settled, fulfilled
    promise; what matters below is that a promise is an object, hence truthy,
    and has no own property [0], [1] or [id]. *)
Inductive value : Type :=
| VUndefined
| VNull
| VBool (b : bool)
| VNum (n : Z)
| VStr (s : string)
| VObj (fields : list (string * value))
| VArr (items : list value)
| VPromise (settled : value).

(** Exceptions: [new Error(msg)], the engine's [TypeError], and
    apollo-server's [AuthenticationError]. *)
Inductive exn : Type :=
| Error (msg : string)
| TypeError (msg : string)
| AuthenticationError (msg : string).

(** [String(err)] for an error object: [name + ": " + message]. *)
Definition exn_to_string (e : exn) : string :=
  match e with
  | Error m => "Error: " ++ m
  | TypeError m => "TypeError: " ++ m
  | AuthenticationError m => "AuthenticationError: " ++ m
  end.

Definition result (A : Type) : Type := (A + exn)%type.

Module JS.

(** ToBoolean. *)
Definition truthy (v : value) : bool :=
  match v with
  | VUndefined | VNull => false
  | VBool b => b
  | VNum n => negb (Z.eqb n 0)
  | VStr s => negb (String.eqb s "")
  | VObj _ | VArr _ | VPromise _ => true
  end.

(** [a || b]: the left operand when it is truthy, the right one otherwise. *)
Definition or (a b : value) : value := if truthy a then a else b.

(** [a === b] on primitives.  Two object operands are equal only when they
    are the same reference; the embedding has no references and answers
    [false] for them (the resolvers compare identifiers and booleans). *)
Definition strict_eq (a b : value) : bool :=
  match a, b with
  | VUndefined, VUndefined => true
  | VNull, VNull => true
  | VBool x, VBool y => Bool.eqb x y
  | VNum x, VNum y => Z.eqb x y
  | VStr x, VStr y => String.eqb x y
  | _, _ => false
  end.

Fixpoint assoc (k : string) (fs : list (string * value)) : option value :=
  match fs with
  | [] => None
  | (k', v) :: r => if String.eqb k k' then Some v else assoc k r
  end.

(** Own-property read once the base is known not to be [null] or
    [undefined]: a missing property reads as [undefined]. *)
Definition prop (v : value) (k : string) : value :=
  match v with
  | VObj fs => match assoc k fs with Some x => x | None => VUndefined end
  | _ => VUndefined
  end.

(** [v[i]] for an index [i]: the element of an array, the own property
    named by the decimal of [i] of an object (an array-like [{0: a, 1: b}]
    answers as the array does), the character of a string; [undefined]
    otherwise. *)
Definition index (v : value) (i : nat) : value :=
  match v with
  | VArr l => nth i l VUndefined
  | VObj fs =>
      match assoc (NilEmpty.string_of_uint (Nat.to_uint i)) fs with
      | Some x => x
      | None => VUndefined
      end
  | VStr s =>
      match String.get i s with
      | Some c => VStr (String c EmptyString)
      | None => VUndefined
      end
  | _ => VUndefined
  end.

Definition nullish (v : value) : bool :=
  match v with
  | VUndefined | VNull => true
  | _ => false
  end.

Definition type_name (v : value) : string :=
  match v with
  | VNull => "null"
  | _ => "undefined"
  end.

(** [v.k]: a [TypeError] when [v] is [null] or [undefined]. *)
Definition get (v : value) (k : string) : result value :=
  if nullish v
  then inr (TypeError ("Cannot read property '" ++ k ++ "' of " ++ type_name v))
  else inl (prop v k).

(** [v[i]] with the same [TypeError]. *)
Definition get_index (v : value) (i : nat) : result value :=
  if nullish v
  then inr (TypeError ("Cannot read property '"
                         ++ NilEmpty.string_of_uint (Nat.to_uint i)
                         ++ "' of " ++ type_name v))
  else inl (index v i).

(** Property write on a field list: an existing key keeps its place. *)
Fixpoint set (k : string) (x : value) (fs : list (string * value))
  : list (string * value) :=
  match fs with
  | [] => [(k, x)]
  | (k', v) :: r =>
      if String.eqb k k' then (k', x) :: r else (k', v) :: set k x r
  end.

(** The own enumerable properties copied by [{...v}]: those of an object,
    none for [null], [undefined] and the other values met here. *)
Definition own_fields (v : value) : list (string * value) :=
  match v with
  | VObj fs => fs
  | _ => []
  end.

(** [{...a, ...b}] on field lists. *)
Definition spread (a b : list (string * value)) : list (string * value) :=
  fold_left (fun acc kv => set (fst kv) (snd kv) acc) b a.

(** ToString, as a template literal applies it. *)
Fixpoint to_string (v : value) : string :=
  match v with
  | VUndefined => "undefined"
  | VNull => "null"
  | VBool true => "true"
  | VBool false => "false"
  | VNum n => NilEmpty.string_of_int (Z.to_int n)
  | VStr s => s
  | VObj _ => "[object Object]"
  | VArr l =>
      (fix join (xs : list value) : string :=
         match xs with
         | [] => ""
         | x :: r =>
             let elt := if nullish x then "" else to_string x in
             match r with
             | [] => elt
             | _ => elt ++ "," ++ join r
             end
         end) l
  | VPromise _ => "[object Promise]"
  end.

(** [await v]: the settled value of a promise, [v] itself otherwise. *)
Definition await (v : value) : value :=
  match v with
  | VPromise x => x
  | _ => v
  end.

End JS.

(** ** The injected collaborators *)

(** [models.User]: the resolvers call four static methods of the model and
    see, synchronously, whatever the call returns.  [S] is the state of the
    storage behind the model.  A call here returns; a call that throws, or
    a promise that rejects, is not represented, and no statement below is
    about such a run. *)
Record UserModel (S : Type) : Type := {
  findOne : value -> S -> value * S;
  findOrCreate : value -> S -> value * S;
  create : value -> value -> S -> value * S;
  update : value -> value -> value -> S -> value * S
}.

(** What the resolvers import from outside the file: [encryptPassword] from
    [../utils/encryption], [jwt.sign] from [jsonwebtoken] and the constant
    [Role.User] from [../types].  They are taken as functions of their
    arguments that return: the issue time that [jsonwebtoken] stamps into
    a token and the salt of a hash are left out, and so is a call that
    throws. *)
Record Externals : Type := {
  encryptPassword : value -> value;
  jwt_sign : value -> value -> value;
  Role_User : value
}.

(** *** The event broadcaster

    Modelled from the spec: section 4.5 (the hub is apollo-server's in-memory
    [PubSub] with graphql-subscriptions' [withFilter], neither of them code of
    this repository).  [publish] hands the payload to every currently
    registered subscriber of the topic, in registration order; a subscriber
    made by [withFilter] receives it only when its predicate answers exactly
    [true]; a predicate that throws rejects that step of the subscriber's
    iterator, and the payload is not delivered. *)
Inductive delivery : Type :=
| Delivered (payload : value)
| Rejected (e : exn).

Record Subscriber : Type := {
  sub_topic : string;
  sub_filter : option (value -> result value);
  sub_stream : list delivery
}.

Record PubSub : Type := {
  subscribers : list Subscriber;
  published : list (string * value)
}.

Module Hub.

Definition push (d : delivery) (s : Subscriber) : Subscriber :=
  {| sub_topic := sub_topic s;
     sub_filter := sub_filter s;
     sub_stream := sub_stream s ++ [d] |}.

Definition deliver (topic : string) (payload : value) (s : Subscriber)
  : Subscriber :=
  if String.eqb (sub_topic s) topic then
    match sub_filter s with
    | None => push (Delivered payload) s
    | Some f =>
        match f payload with
        | inl (VBool true) => push (Delivered payload) s
        | inl _ => s
        | inr e => push (Rejected e) s
        end
    end
  else s.

Definition publish (topic : string) (payload : value) (h : PubSub) : PubSub :=
  {| subscribers := map (deliver topic payload) (subscribers h);
     published := published h ++ [(topic, payload)] |}.

(** [pubsub.asyncIterator(topic)]: a new subscriber with an empty stream. *)
Definition asyncIterator (topic : string) : Subscriber :=
  {| sub_topic := topic; sub_filter := None; sub_stream := [] |}.

(** [withFilter(asyncIteratorFn, filterFn)] applied to the subscription's
    arguments. *)
Definition withFilter (it : Subscriber)
           (filterFn : value -> value -> result value) (args : value)
  : Subscriber :=
  {| sub_topic := sub_topic it;
     sub_filter := Some (fun payload => filterFn payload args);
     sub_stream := sub_stream it |}.

Definition register (s : Subscriber) (h : PubSub) : PubSub :=
  {| subscribers := subscribers h ++ [s]; published := published h |}.

(** The payloads a subscriber has actually received. *)
Definition received (s : Subscriber) : list value :=
  flat_map (fun d => match d with Delivered p => [p] | Rejected _ => [] end)
           (sub_stream s).

Definition empty : PubSub := {| subscribers := []; published := [] |}.

End Hub.

(** ** The resolver monad: state and exceptions *)

Record World (S : Type) : Type := {
  db : S;
  pubsub : PubSub
}.

Definition M (S A : Type) : Type := World S -> result A * World S.

Module Run.
Section Ops.
Context {S : Type}.

Definition ret {A} (a : A) : M S A := fun w => (inl a, w).

Definition bind {A B} (m : M S A) (k : A -> M S B) : M S B :=
  fun w => match m w with
           | (inl a, w') => k a w'
           | (inr e, w') => (inr e, w')
           end.

Definition throw {A} (e : exn) : M S A := fun w => (inr e, w).

(** [try { m } catch (err) { h err }]: the state reached when the
    exception was thrown is kept. *)
Definition try_catch {A} (m : M S A) (h : exn -> M S A) : M S A :=
  fun w => match m w with
           | (inl a, w') => (inl a, w')
           | (inr e, w') => h e w'
           end.

Definition lift {A} (r : result A) : M S A := fun w => (r, w).

(** A call of a model method: the storage moves, the caller gets the
    method's return value. *)
Definition call (f : S -> value * S) : M S value :=
  fun w => let (v, s') := f (db w) in
           (inl v, {| db := s'; pubsub := pubsub w |}).

Definition publish (topic : string) (payload : value) : M S unit :=
  fun w => (inl tt, {| db := db w;
                       pubsub := Hub.publish topic payload (pubsub w) |}).

End Ops.
End Run.

Declare Scope js_scope.
Delimit Scope js_scope with js.
Notation "x <- m ;; k" := (Run.bind m (fun x => k))
  (at level 61, m at next level, right associativity) : js_scope.
Notation "m ;;; k" := (Run.bind m (fun _ => k))
  (at level 61, right associativity) : js_scope.

Open Scope js_scope.

(** ** [src/resolvers/user.ts] *)

Definition USER_ADDED : string := "USER_ADDED".
Definition USER_UPDATED : string := "USER_UPDATED".

Module SOCIAL_NAME.
Definition GOOGLE : value := VStr "google".
Definition FACEBOOK : value := VStr "facebook".
End SOCIAL_NAME.

(** [const hasUser = (user) => !user || (user && user[1] === false)]. *)
Definition hasUser (user : value) : bool :=
  negb (JS.truthy user)
  || (JS.truthy user && JS.strict_eq (JS.index user 1) (VBool false)).

Section Helpers.
Context {S : Type}.
Variable User : UserModel S.
Variable ext : Externals.

(** The options object [isSignedIn] passes to [User.findOne]:
    [{ raw: true, where: { email }, ...queryOptions }]. *)
Definition isSignedIn_options (email queryOptions : value) : value :=
  VObj (JS.spread [("raw", VBool true); ("where", VObj [("email", email)])]
                  (JS.own_fields queryOptions)).

(** [isSignedIn]: the value returned by [User.findOne] is bound and tested
    as it is; the source has no [await] on that call.  The function is
    [async] and every caller awaits it, so it is a computation of [M]. *)
Definition isSignedIn (user : value) (queryOptions : value) : M S value :=
  email <- Run.lift (JS.get user "email") ;;
  emailUser <- Run.call (findOne User (isSignedIn_options email queryOptions)) ;;
  if JS.truthy emailUser then Run.ret (VBool true) else Run.ret (VBool false).

(** The [queryOptions] of [isSignedInBySocial]:
    [{ where: { email, social: { $notLike: `${socialName}%` } } }]. *)
Definition isSignedInBySocial_options (email socialName : value) : value :=
  VObj [("where",
         VObj [("email", email);
               ("social",
                VObj [("$notLike", VStr (JS.to_string socialName ++ "%"))])])].

Definition isSignedInBySocial (socialUser socialName : value) : M S value :=
  email <- Run.lift (JS.get socialUser "email") ;;
  isSignedIn socialUser (isSignedInBySocial_options email socialName).

(** The social key [`${socialName}_${social}`]. *)
Definition social_key (socialName social : value) : value :=
  VStr (JS.to_string socialName ++ "_" ++ JS.to_string social).

(** The [defaults] that [getOrSignUp] hands to [User.findOrCreate]. *)
Definition getOrSignUp_defaults (socialUser socialName : value) : value :=
  VObj [("social", social_key socialName (JS.prop socialUser "social"));
        ("email", JS.prop socialUser "email");
        ("name", JS.prop socialUser "name");
        ("nickname", JS.prop socialUser "nickname");
        ("photo", JS.prop socialUser "photo");
        ("birthday", JS.prop socialUser "birthday");
        ("gender", JS.prop socialUser "gender");
        ("phone", JS.prop socialUser "phone");
        ("verified", JS.or (JS.prop socialUser "email") (VBool false))].

Definition getOrSignUp_options (socialUser socialName : value) : value :=
  VObj [("where",
         VObj [("social", social_key socialName (JS.prop socialUser "social"))]);
        ("defaults", getOrSignUp_defaults socialUser socialName);
        ("raw", VBool true)].

(** [getOrSignUp]: destructures [socialUser] (a [TypeError] when it is
    [null] or [undefined]), calls [User.findOrCreate] without [await], and
    tests what the call returned with [hasUser]. *)
Definition getOrSignUp (socialUser socialName : value) : M S value :=
  _ <- Run.lift (JS.get socialUser "email") ;;
  foundUser <- Run.call (findOrCreate User
                           (getOrSignUp_options socialUser socialName)) ;;
  if hasUser foundUser
  then Run.lift (JS.get_index foundUser 0)
  else Run.ret VNull.

(** [signIn = (userId, appSecret) => jwt.sign({ userId, role: Role.User },
    appSecret)]. *)
Definition signIn (userId appSecret : value) : value :=
  jwt_sign ext (VObj [("userId", userId); ("role", Role_User ext)]) appSecret.

End Helpers.

Module Mutation.
Section Resolvers.
Context {S : Type}.
Variable User : UserModel S.
Variable ext : Externals.

(** [signInGoogle(_, { socialUser }, { appSecret, models })]. *)
Definition signInGoogle (socialUser appSecret : value) : M S value :=
  email <- Run.lift (JS.get socialUser "email") ;;
  Run.try_catch
    ((if JS.truthy email then
        signedIn <- isSignedInBySocial User socialUser SOCIAL_NAME.GOOGLE ;;
        if JS.truthy signedIn
        then Run.throw (Error "Email for current user is already signed in")
        else Run.ret tt
      else Run.ret tt) ;;;
     user <- getOrSignUp User socialUser SOCIAL_NAME.GOOGLE ;;
     if negb (JS.truthy user)
     then Run.throw (Error "Failed to sign up.")
     else
       userId <- Run.lift (JS.get user "id") ;;
       let token := signIn ext userId appSecret in
       Run.ret (VObj [("token", token); ("user", user)]))
    (fun err => Run.throw (Error (exn_to_string err))).

(** [signInFacebook(_, { socialUser }, { appSecret, models })]. *)
Definition signInFacebook (socialUser appSecret : value) : M S value :=
  email <- Run.lift (JS.get socialUser "email") ;;
  Run.try_catch
    ((if JS.truthy email then
        signedIn <- isSignedInBySocial User socialUser SOCIAL_NAME.FACEBOOK ;;
        if JS.truthy signedIn
        then Run.throw (Error "Email for current user is already signed in")
        else Run.ret tt
      else Run.ret tt) ;;;
     user <- getOrSignUp User socialUser SOCIAL_NAME.FACEBOOK ;;
     if negb (JS.truthy user)
     then Run.throw (Error "Failed to sign up.")
     else
       userId <- Run.lift (JS.get user "id") ;;
       let token := signIn ext userId appSecret in
       Run.ret (VObj [("token", token); ("user", user)]))
    (fun err => Run.throw (Error (exn_to_string err))).

(** The object [signUp] hands to [User.create]:
    [{ ...user, password: encryptedPassword }]. *)
Definition userToCreate (user encryptedPassword : value) : value :=
  VObj (JS.spread (JS.own_fields user) [("password", encryptedPassword)]).

(** [signUp(_, { user }, { appSecret, models, pubsub })]. *)
Definition signUp (user appSecret : value) : M S value :=
  password <- Run.lift (JS.get user "password") ;;
  signedIn <- isSignedIn User user (VObj []) ;;
  if JS.truthy signedIn
  then Run.throw (Error "Email for current user is already signed in")
  else
    let encryptedPassword := JS.await (encryptPassword ext password) in
    created <- Run.call (create User (userToCreate user encryptedPassword)
                                (VObj [("raw", VBool true)])) ;;
    let createdUser := JS.await created in
    createdId <- Run.lift (JS.get createdUser "id") ;;
    let token :=
      jwt_sign ext (VObj [("userId", createdId); ("role", Role_User ext)])
               appSecret in
    Run.publish USER_ADDED (VObj [("userAdded", createdUser)]) ;;;
    Run.ret (VObj [("token", token); ("user", createdUser)]).

(** [updateProfile(_, args, { appSecret, getUser, models, pubsub })];
    [auth] is what [await getUser()] gave.  [User.update] is called with
    [args] and is not awaited; its effect on the storage is taken as
    complete before the read that follows. *)
Definition updateProfile (args auth : value) : M S value :=
  Run.try_catch
    (authId <- Run.lift (JS.get auth "id") ;;
     argsUser <- Run.lift (JS.get args "user") ;;
     targetId <- Run.lift (JS.get argsUser "id") ;;
     if negb (JS.strict_eq authId targetId)
     then Run.throw
            (AuthenticationError "User can update his or her own profile")
     else
       _ <- Run.call (update User args
                        (VObj [("where", VObj [("id", targetId)])])
                        (VObj [("raw", VBool true)])) ;;
       found <- Run.call (findOne User
                            (VObj [("where", VObj [("id", targetId)]);
                                   ("raw", VBool true)])) ;;
       let user := JS.await found in
       Run.publish USER_UPDATED (VObj [("user", user)]) ;;;
       Run.ret user)
    (fun err => Run.throw (Error (exn_to_string err))).

End Resolvers.
End Mutation.

Module Subscription.

(** [userAdded.subscribe = (_, args, { pubsub }) =>
    pubsub.asyncIterator(USER_ADDED)]. *)
Definition userAdded (args : value) : Subscriber :=
  Hub.asyncIterator USER_ADDED.

(** The predicate of [userUpdated]:
    [(payload, variables) => payload.userUpdated.id === variables.id]. *)
Definition userUpdated_filter (payload variables : value) : result value :=
  match JS.get payload "userUpdated" with
  | inr e => inr e
  | inl updated =>
      match JS.get updated "id" with
      | inr e => inr e
      | inl updatedId =>
          match JS.get variables "id" with
          | inr e => inr e
          | inl wantedId => inl (VBool (JS.strict_eq updatedId wantedId))
          end
      end
  end.

(** [userUpdated.subscribe = withFilter((_, args, { pubsub }) =>
    pubsub.asyncIterator(USER_UPDATED), filter)]. *)
Definition userUpdated (args : value) : Subscriber :=
  Hub.withFilter (Hub.asyncIterator USER_UPDATED) userUpdated_filter args.

End Subscription.

(** ** The earlier revision of the resolvers

    The sources hold an earlier revision of the same file, in which
    [signUp] and [signInFacebook] call the model inline and await each
    call.  They are embedded here to be compared with the current ones. *)
Module Legacy.
Section Resolvers.
Context {S : Type}.
Variable User : UserModel S.
Variable ext : Externals.

(** [signUp(_, args, { appSecret, models, pubsub })]: the lookup is
    awaited, the hash is written into [args.user], which is then created. *)
Definition signUp (args appSecret : value) : M S value :=
  argsUser <- Run.lift (JS.get args "user") ;;
  email <- Run.lift (JS.get argsUser "email") ;;
  found <- Run.call (findOne User (VObj [("where", VObj [("email", email)]);
                                         ("raw", VBool true)])) ;;
  let emailUser := JS.await found in
  if JS.truthy emailUser
  then Run.throw (Error "Email for current user is already signed up.")
  else
    password <- Run.lift (JS.get argsUser "password") ;;
    let hashed :=
      VObj (JS.set "password" (JS.await (encryptPassword ext password))
                   (JS.own_fields argsUser)) in
    created <- Run.call (create User hashed (VObj [("raw", VBool true)])) ;;
    let user := JS.await created in
    userId <- Run.lift (JS.get user "id") ;;
    let token :=
      jwt_sign ext (VObj [("userId", userId); ("role", Role_User ext)])
               appSecret in
    Run.publish USER_ADDED (VObj [("userAdded", user)]) ;;;
    Run.ret (VObj [("token", token); ("user", user)]).

(** [signInFacebook(_, args, { appSecret, models, pubsub })]: both calls of
    the model are awaited, and the row of the pair is returned whether it
    was found or created. *)
Definition signInFacebook (args appSecret : value) : M S value :=
  Run.try_catch
    (su <- Run.lift (JS.get args "socialUser") ;;
     email <- Run.lift (JS.get su "email") ;;
     (if JS.truthy email then
        found <- Run.call
                   (findOne User
                      (VObj [("where",
                              VObj [("email", email);
                                    ("social",
                                     VObj [("$notLike", VStr "facebook%")])]);
                             ("raw", VBool true)])) ;;
        if JS.truthy (JS.await found)
        then Run.throw (Error "Email for current user is already signed in")
        else Run.ret tt
      else Run.ret tt) ;;;
     let key := VStr ("facebook_" ++ JS.to_string (JS.prop su "social")) in
     pair <- Run.call
               (findOrCreate User
                  (VObj [("where", VObj [("social", key)]);
                         ("defaults",
                          VObj [("social", key);
                                ("email", JS.prop su "email");
                                ("nickname", JS.prop su "name");
                                ("name", JS.prop su "name");
                                ("birthday", JS.prop su "birthday");
                                ("gender", JS.prop su "gender");
                                ("phone", JS.prop su "phone");
                                ("verified",
                                 JS.or (JS.prop su "email") (VBool false))]);
                         ("raw", VBool true)])) ;;
     let user := JS.await pair in
     row <- Run.lift (JS.get_index user 0) ;;
     userId <- Run.lift (JS.get row "id") ;;
     let token :=
       jwt_sign ext (VObj [("userId", userId); ("role", Role_User ext)])
                appSecret in
     Run.ret (VObj [("token", token); ("user", row)]))
    (fun err => Run.throw (Error (exn_to_string err))).

End Resolvers.
End Legacy.

(** ** The storage behind [models.User]

    Modelled from the spec: section 3 (Account) and section 6 (Identity Store
    Adapter); [models/User.ts] is not among the sources.  The model is a
    Sequelize model (see [models/Chat.ts]: [class Chat extends Model],
    [Chat.init], [Chat.findAll]), so every static method returns a promise;
    rows are read with [raw: true], that is as plain objects.  A row has the
    columns of the Account of section 3; a column without a value is [null];
    an identifier is generated on creation.  Timestamps and soft deletion are
    left to the storage and not represented. *)
Module Sequelize.

Record Store : Type := {
  rows : list value;
  next_id : nat
}.

Definition empty : Store := {| rows := []; next_id := 0 |}.

Definition columns : list string :=
  ["id"; "email"; "social"; "password"; "name"; "nickname"; "photo";
   "birthday"; "gender"; "phone"; "verified"].

(** The text before a final [%] of a LIKE pattern, when it ends so. *)
Fixpoint like_prefix (pattern : string) : option string :=
  match pattern with
  | EmptyString => None
  | String c EmptyString =>
      if Ascii.eqb c "%"%char then Some EmptyString else None
  | String c r =>
      match like_prefix r with
      | Some p => Some (String c p)
      | None => None
      end
  end.

(** LIKE for the patterns the resolvers build: a literal prefix followed by
    [%]; any other pattern is compared literally. *)
Definition like (pattern s : string) : bool :=
  match like_prefix pattern with
  | Some p => String.prefix p s
  | None => String.eqb pattern s
  end.

(** One condition of a [where] object against the row's column: an object
    [{ $notLike: pattern }] holds when the column is not a string matching
    the pattern (an absent social key counts as not prefixed, as section
    4.2 of the spec reads it); any other condition is equality. *)
Definition cond_matches (cond field : value) : bool :=
  match cond with
  | VObj fs =>
      match JS.assoc "$notLike" fs with
      | Some (VStr pattern) =>
          match field with
          | VStr s => negb (like pattern s)
          | _ => true
          end
      | _ => false
      end
  | _ => JS.strict_eq field cond
  end.

Definition where_matches (where_ row : value) : bool :=
  forallb (fun kc => cond_matches (snd kc) (JS.prop row (fst kc)))
          (JS.own_fields where_).

Definition fresh_id (n : nat) : value :=
  VStr ("user-" ++ NilEmpty.string_of_uint (Nat.to_uint n)).

Definition column_value (fields : list (string * value)) (c : string) : value :=
  match JS.assoc c fields with
  | Some VUndefined | None => VNull
  | Some v => v
  end.

(** The row built from the given fields: only columns are kept, the
    identifier is generated unless one is given. *)
Definition new_row (fields : list (string * value)) (n : nat) : value :=
  VObj (map (fun c =>
               (c, if String.eqb c "id" && JS.nullish (column_value fields c)
                   then fresh_id n
                   else column_value fields c))
            columns).

Definition insert (fields : list (string * value)) (st : Store)
  : value * Store :=
  let row := new_row fields (next_id st) in
  (row, {| rows := rows st ++ [row]; next_id := Datatypes.S (next_id st) |}).

Definition lookup (where_ : value) (st : Store) : option value :=
  find (where_matches where_) (rows st).

Definition findOne (options : value) (st : Store) : value * Store :=
  match lookup (JS.prop options "where") st with
  | Some row => (VPromise row, st)
  | None => (VPromise VNull, st)
  end.

(** [findOrCreate({ where, defaults })] resolves to [[row, created]]; a
    row is created from the defaults, completed by the [where]. *)
Definition findOrCreate (options : value) (st : Store) : value * Store :=
  match lookup (JS.prop options "where") st with
  | Some row => (VPromise (VArr [row; VBool false]), st)
  | None =>
      let (row, st') :=
        insert (JS.spread (JS.own_fields (JS.prop options "where"))
                          (JS.own_fields (JS.prop options "defaults"))) st in
      (VPromise (VArr [row; VBool true]), st')
  end.

Definition create (values options : value) (st : Store) : value * Store :=
  let (row, st') := insert (JS.own_fields values) st in
  (VPromise row, st').

(** A partial update: of the keys of [values], those that are columns and
    carry a value replace the row's; everything else is left as it was. *)
Definition patch (values row : value) : value :=
  VObj (map (fun cv =>
               (fst cv,
                match JS.assoc (fst cv) (JS.own_fields values) with
                | Some VUndefined | None => snd cv
                | Some v => v
                end))
            (JS.own_fields row)).

(** Whether [values] carries a value for some column. *)
Definition names_a_column (values : value) : bool :=
  existsb (fun c => match JS.assoc c (JS.own_fields values) with
                    | Some VUndefined | None => false
                    | Some _ => true
                    end)
          columns.

(** [update(values, options)] resolves to [[affectedCount]]; a third
    argument is ignored.  When [values] names no column nothing is left to
    write: the update is skipped, no row is touched and the count is [0]. *)
Definition update (values options ignored : value) (st : Store)
  : value * Store :=
  let w := JS.prop options "where" in
  if names_a_column values then
    (VPromise
       (VArr [VNum (Z.of_nat (length (filter (where_matches w) (rows st))))]),
     {| rows := map (fun row => if where_matches w row then patch values row
                                else row) (rows st);
        next_id := next_id st |})
  else (VPromise (VArr [VNum 0]), st).

Definition User : UserModel Store :=
  Build_UserModel findOne findOrCreate create update.

End Sequelize.

(** A storage double that answers synchronously: the same storage, each
    method returning the settled value itself instead of a promise. *)
Module SyncDouble.

Definition settle (r : value * Sequelize.Store) : value * Sequelize.Store :=
  (JS.await (fst r), snd r).

Definition User : UserModel Sequelize.Store :=
  {| findOne := fun o st => settle (Sequelize.findOne o st);
     findOrCreate := fun o st => settle (Sequelize.findOrCreate o st);
     create := fun v o st => settle (Sequelize.create v o st);
     update := fun v o i st => settle (Sequelize.update v o i st) |}.

End SyncDouble.

(** Stand-ins for the imported functions, used where a statement needs
    concrete ones: the hash and the token are tagged texts that keep their
    inputs apart. *)
Module Sample.

Definition ext : Externals :=
  {| encryptPassword := fun p => VPromise (VStr ("hash:" ++ JS.to_string p));
     jwt_sign := fun payload secret =>
                   VStr ("jwt:" ++ JS.to_string (JS.prop payload "userId")
                                ++ ":" ++ JS.to_string secret);
     Role_User := VStr "User" |}.

Definition world (st : Sequelize.Store) : World Sequelize.Store :=
  {| db := st; pubsub := Hub.empty |}.

End Sample.

(** ** The failures of section 7 of the spec, as the resolvers raise them

    The social sign-in and profile resolvers wrap whatever they catch in
    [new Error(err)], whose message is [String(err)]. *)
Module Failure.

Definition AlreadySignedUp : exn :=
  Error "Email for current user is already signed in".

Definition EmailAlreadyClaimed : exn :=
  Error (exn_to_string (Error "Email for current user is already signed in")).

Definition SignUpFailed : exn :=
  Error (exn_to_string (Error "Failed to sign up.")).

Definition Forbidden : exn :=
  Error (exn_to_string
           (AuthenticationError "User can update his or her own profile")).

End Failure.

(** ** Requests and storages used in the examples *)
Module Scenario.

Definition secret : value := VStr "s3cret".

(** [signUp(user: {email: "a@x.com", password: "p", name: "A"})]. *)
Definition alice : value :=
  VObj [("email", VStr "a@x.com"); ("password", VStr "p"); ("name", VStr "A")].

(** The same request with another password. *)
Definition alice' : value :=
  VObj [("email", VStr "a@x.com"); ("password", VStr "q"); ("name", VStr "A")].

(** A social profile without an email, and one with an email. *)
Definition g1 : value := VObj [("social", VStr "g1"); ("name", VStr "G")].
Definition g1_mail : value :=
  VObj [("social", VStr "g1"); ("email", VStr "a@x.com")].

(** A stored local account, identifier ["u1"], name ["Old"]. *)
Definition u1_row : value :=
  VObj [("id", VStr "u1"); ("email", VStr "a@x.com"); ("social", VNull);
        ("password", VStr "hash:p"); ("name", VStr "Old");
        ("nickname", VNull); ("photo", VNull); ("birthday", VNull);
        ("gender", VNull); ("phone", VNull); ("verified", VNull)].

Definition with_u1 : Sequelize.Store :=
  {| Sequelize.rows := [u1_row]; Sequelize.next_id := 1 |}.

(** [updateProfile(user: {id: "u1", name: "New"})]. *)
Definition rename_u1 : value :=
  VObj [("user", VObj [("id", VStr "u1"); ("name", VStr "New")])].

Definition as_u1 : value := VObj [("id", VStr "u1")].
Definition as_u2 : value := VObj [("id", VStr "u2")].

End Scenario.

(** ** Auxiliary definitions of the statements *)

(** The row that the first Google sign-in of native id ["g1"] leaves in an
    empty storage. *)
Definition google_g1_row : value :=
  VObj [("id", VStr "user-0"); ("email", VNull); ("social", VStr "google_g1");
        ("password", VNull); ("name", VStr "G"); ("nickname", VNull);
        ("photo", VNull); ("birthday", VNull); ("gender", VNull);
        ("phone", VNull); ("verified", VBool false)].

Definition after_google_g1 : Sequelize.Store :=
  {| Sequelize.rows := [google_g1_row]; Sequelize.next_id := 1 |}.

(** An account with this email that is local for the provider: a row that
    the lookup of [isSignedInBySocial] selects (same email, social key not
    matching [`${socialName}%`]). *)
Definition claimed_by_local (socialName email : value) (st : Sequelize.Store)
  : bool :=
  existsb (Sequelize.where_matches
             (JS.prop (isSignedInBySocial_options email socialName) "where"))
          (Sequelize.rows st).

(** The local account of ["a@x.com"] stored after a Google account (the
    social request came first) and before one (the local request came
    first). *)
Definition social_then_local : Sequelize.Store :=
  {| Sequelize.rows := [google_g1_row; Scenario.u1_row]; Sequelize.next_id := 2 |}.

Definition local_then_social : Sequelize.Store :=
  {| Sequelize.rows := [Scenario.u1_row; google_g1_row]; Sequelize.next_id := 2 |}.

(** A stored row: an object whose keys are the columns. *)
Definition is_row (row : value) : Prop :=
  exists fs, row = VObj fs /\ map fst fs = Sequelize.columns.

(** A hub with one subscriber of [userUpdated] asking for account ["u1"]. *)
Definition watching_u1 : World Sequelize.Store :=
  {| db := Scenario.with_u1;
     pubsub := Hub.register (Subscription.userUpdated Scenario.as_u1)
                            Hub.empty |}.

Definition publish_all (evs : list (string * value)) (h : PubSub) : PubSub :=
  fold_left (fun h ev => Hub.publish (fst ev) (snd ev) h) evs h.

Definition deliver_all (evs : list (string * value)) (s : Subscriber)
  : Subscriber :=
  fold_left (fun s ev => Hub.deliver (fst ev) (snd ev) s) evs s.

(** The payloads published on a topic, in publish order. *)
Definition payloads_on (topic : string) (evs : list (string * value))
  : list value :=
  map snd (filter (fun ev => String.eqb topic (fst ev)) evs).

(** The account that the sign-up of [Scenario.alice] creates in an empty
    storage when the password hashes to [hash]. *)
Definition alice_row (hash : string) : value :=
  VObj [("id", VStr "user-0"); ("email", VStr "a@x.com"); ("social", VNull);
        ("password", VStr hash); ("name", VStr "A"); ("nickname", VNull);
        ("photo", VNull); ("birthday", VNull); ("gender", VNull);
        ("phone", VNull); ("verified", VNull)].

Definition after_alice (hash : string) : World Sequelize.Store :=
  {| db := {| Sequelize.rows := [alice_row hash]; Sequelize.next_id := 1 |};
     pubsub := Hub.publish USER_ADDED
                           (VObj [("userAdded", alice_row hash)]) Hub.empty |}.

(** The options of the email lookup of a social sign-in. *)
Definition social_lookup (socialUser socialName : value) : value :=
  isSignedIn_options
    (JS.prop socialUser "email")
    (isSignedInBySocial_options (JS.prop socialUser "email") socialName).

(** The storage as the email check leaves it: the lookup runs only for a
    truthy email. *)
Definition after_check {S : Type} (User : UserModel S)
           (socialUser socialName : value) (st : S) : S :=
  if JS.truthy (JS.prop socialUser "email")
  then snd (findOne User (social_lookup socialUser socialName) st)
  else st.

(** What a social resolver answers, as a function of the two responses of
    the model. *)
Definition social_answer (ext : Externals) (socialUser appSecret : value)
           (emailUser foundUser : value) : result value :=
  if JS.truthy (JS.prop socialUser "email") && JS.truthy emailUser
  then inr Failure.EmailAlreadyClaimed
  else if hasUser foundUser
       then match JS.get_index foundUser 0 with
            | inr e => inr (Error (exn_to_string e))
            | inl user =>
                if negb (JS.truthy user) then inr Failure.SignUpFailed
                else inl (VObj [("token",
                                 signIn ext (JS.prop user "id") appSecret);
                                ("user", user)])
            end
       else inr Failure.SignUpFailed.

(** A model that replays two recorded responses, whatever it is asked. *)
Module Replay.

Definition User (emailUser foundUser : value) : UserModel unit :=
  {| findOne := fun _ s => (emailUser, s);
     findOrCreate := fun _ s => (foundUser, s);
     create := fun _ _ s => (VPromise VNull, s);
     update := fun _ _ _ s => (VPromise (VArr [VNum 0]), s) |}.

Definition world : World unit := {| db := tt; pubsub := Hub.empty |}.

End Replay.

(** The row that the first Facebook sign-in of native id ["g1"] leaves in an
    empty storage, in the earlier revision. *)
Definition facebook_g1_row : value :=
  VObj [("id", VStr "user-0"); ("email", VNull); ("social", VStr "facebook_g1");
        ("password", VNull); ("name", VStr "G"); ("nickname", VStr "G");
        ("photo", VNull); ("birthday", VNull); ("gender", VNull);
        ("phone", VNull); ("verified", VBool false)].

(** ** Further resolvers and notions *)

(** A computation that leaves the hub as it found it. *)
Definition keeps_hub {S A : Type} (m : M S A) : Prop :=
  forall w, pubsub (snd (m w)) = pubsub w.

(** The payloads of a topic that a [userUpdated] subscription with the
    given variables lets through: those whose [userUpdated.id] is strictly
    equal to [variables.id]. *)
Definition updates_for (variables : value) (evs : list (string * value))
  : list value :=
  filter (fun p => JS.strict_eq (JS.prop (JS.prop p "userUpdated") "id")
                                (JS.prop variables "id"))
         (payloads_on USER_UPDATED evs).

(** An event that a [userUpdated] predicate can read: when it is on the
    topic [USER_UPDATED], its payload has an account under [userUpdated]. *)
Definition keyed_update (ev : string * value) : Prop :=
  String.eqb USER_UPDATED (fst ev) = true ->
  JS.nullish (snd ev) = false
  /\ JS.nullish (JS.prop (snd ev) "userUpdated") = false.

(** *** The latest revision of [updateProfile]

    The sources also hold a later revision of the file, in which
    [updateProfile] goes through the helpers [isValidUser] and
    [udpateUser]. *)
Module Refactored.
Section Resolvers.
Context {S : Type}.
Variable User : UserModel S.

(** [isValidUser = (signedInUser, user) => signedInUser.id === user.id]. *)
Definition isValidUser (signedInUser user : value) : result value :=
  match JS.get signedInUser "id" with
  | inr e => inr e
  | inl a =>
      match JS.get user "id" with
      | inr e => inr e
      | inl b => inl (VBool (JS.strict_eq a b))
      end
  end.

(** [udpateUser = async ({ User }, id, userData) => User.update(userData,
    { where: { id } }, { raw: true })]; the caller awaits it. *)
Definition udpateUser (id userData : value) : M S value :=
  response <- Run.call (update User userData
                          (VObj [("where", VObj [("id", id)])])
                          (VObj [("raw", VBool true)])) ;;
  Run.ret (JS.await response).

(** [updateProfile(_, args, { getUser: getSignedInUser, models, pubsub })];
    [signedInUser] is what [await getSignedInUser()] gave.  The two
    destructurings stand before the [try]. *)
Definition updateProfile (args signedInUser : value) : M S value :=
  user <- Run.lift (JS.get args "user") ;;
  id <- Run.lift (JS.get user "id") ;;
  Run.try_catch
    (valid <- Run.lift (isValidUser signedInUser user) ;;
     if negb (JS.truthy valid)
     then Run.throw
            (AuthenticationError "User can update his or her own profile")
     else
       updatedUser <- udpateUser id args ;;
       Run.publish USER_UPDATED (VObj [("updatedUser", updatedUser)]) ;;;
       Run.ret updatedUser)
    (fun err => Run.throw (Error (exn_to_string err))).

End Resolvers.
End Refactored.

(** The lookup, the key and the find-or-create options that the earlier
    [signInFacebook] spells out inline. *)
Definition facebook_claim (su : value) : value :=
  VObj [("where",
         VObj [("email", JS.prop su "email");
               ("social", VObj [("$notLike", VStr "facebook%")])]);
        ("raw", VBool true)].

Definition facebook_key (su : value) : string :=
  "facebook_" ++ JS.to_string (JS.prop su "social").

Definition facebook_options (su : value) : value :=
  VObj [("where", VObj [("social", VStr (facebook_key su))]);
        ("defaults",
         VObj [("social", VStr (facebook_key su));
               ("email", JS.prop su "email");
               ("nickname", JS.prop su "name");
               ("name", JS.prop su "name");
               ("birthday", JS.prop su "birthday");
               ("gender", JS.prop su "gender");
               ("phone", JS.prop su "phone");
               ("verified", JS.or (JS.prop su "email") (VBool false))]);
        ("raw", VBool true)].

(** An account whose verified flag is the boolean [true] exactly when it
    has an email, and [false] otherwise. *)
Definition verified_as_email (row : value) : Prop :=
  JS.prop row "verified" = VBool (JS.truthy (JS.prop row "email")).

(** * Properties *)

(** ** What the storage answers *)

Lemma Sequelize_findOne_is_promise (o : value) (st : Sequelize.Store) :
  exists r, Sequelize.findOne o st = (VPromise r, st).
Proof.
  unfold Sequelize.findOne.
  destruct (Sequelize.lookup (JS.prop o "where") st); eauto.
Qed.

Lemma Sequelize_findOrCreate_is_promise (o : value) (st : Sequelize.Store) :
  exists r st', Sequelize.findOrCreate o st = (VPromise r, st').
Proof.
  unfold Sequelize.findOrCreate, Sequelize.insert.
  destruct (Sequelize.lookup (JS.prop o "where") st); eauto.
Qed.

Lemma hasUser_promise (r : value) : hasUser (VPromise r) = false.
Proof. reflexivity. Qed.

(** [hasUser] answers [false] on the pair of a created row, [true] on the
    pair of a found row and on a missing result. *)
Lemma hasUser_created (row : value) : hasUser (VArr [row; VBool true]) = false.
Proof. reflexivity. Qed.

Lemma hasUser_found (row : value) : hasUser (VArr [row; VBool false]) = true.
Proof. reflexivity. Qed.

Lemma hasUser_null : hasUser VNull = true.
Proof. reflexivity. Qed.

Lemma world_eta {S : Type} (w : World S) :
  {| db := db w; pubsub := pubsub w |} = w.
Proof. destruct w; reflexivity. Qed.

(** With the Sequelize model [isSignedIn] answers [true] whatever the
    storage holds: it tests the promise, not the row the promise settles to. *)
Lemma isSignedIn_Sequelize (user q email : value) (w : World Sequelize.Store) :
  JS.get user "email" = inl email ->
  isSignedIn Sequelize.User user q w = (inl (VBool true), w).
Proof.
  intros Hget.
  unfold isSignedIn, Run.bind, Run.lift, Run.call, Run.ret.
  rewrite Hget; cbn [findOne Sequelize.User].
  destruct (Sequelize_findOne_is_promise (isSignedIn_options email q) (db w))
    as [r Hr].
  rewrite Hr; cbn.
  now rewrite world_eta.
Qed.

(** With the Sequelize model [getOrSignUp] answers [null] whatever the
    storage holds, although the row is found or created. *)
Lemma getOrSignUp_Sequelize (socialUser name email : value)
      (w : World Sequelize.Store) :
  JS.get socialUser "email" = inl email ->
  exists st',
    getOrSignUp Sequelize.User socialUser name w
    = (inl VNull, {| db := st'; pubsub := pubsub w |}).
Proof.
  intros Hget.
  unfold getOrSignUp, Run.bind, Run.lift, Run.call, Run.ret.
  rewrite Hget; cbn [findOrCreate Sequelize.User].
  destruct (Sequelize_findOrCreate_is_promise
              (getOrSignUp_options socialUser name) (db w)) as [r [st' Hr]].
  rewrite Hr; cbn.
  now exists st'.
Qed.


(** C1.  The first scenario of section 8 on the source: the storage is
    empty, so the email of the request matches no account, and [signUp]
    answers with the failure [AlreadySignedUp] instead of a token and the
    created account; nothing is stored and nothing is published. *)
Theorem signUp_fresh_email_is_rejected :
  Mutation.signUp Sequelize.User Sample.ext Scenario.alice Scenario.secret
                  (Sample.world Sequelize.empty)
  = (inr Failure.AlreadySignedUp, Sample.world Sequelize.empty).
Proof. reflexivity. Qed.

(** ** Social sign-in on the Sequelize model *)

(** The two social resolvers have the same proof, step for step. *)
Ltac social_with_email Hobj Hmail :=
  unfold Run.bind at 1, Run.lift at 1;
  unfold JS.get at 1; rewrite Hobj;
  unfold Run.try_catch, Run.bind at 1; rewrite Hmail;
  unfold Run.bind at 1, isSignedInBySocial, Run.bind at 1, Run.lift at 1;
  unfold JS.get at 1; rewrite Hobj;
  erewrite isSignedIn_Sequelize by (unfold JS.get; now rewrite Hobj);
  reflexivity.

Ltac social_without_email Hobj Hmail name w :=
  unfold Run.bind at 1, Run.lift at 1;
  unfold JS.get at 1; rewrite Hobj;
  unfold Run.try_catch, Run.bind at 1; rewrite Hmail;
  unfold Run.ret at 1, Run.bind at 1;
  match goal with
  | |- context [getOrSignUp Sequelize.User ?su _ _] =>
      destruct (@getOrSignUp_Sequelize su name (JS.prop su "email") w)
        as [st' Hst'];
      [ unfold JS.get; now rewrite Hobj | rewrite Hst'; now exists st' ]
  end.

(** A social profile with an email is answered with [EmailAlreadyClaimed],
    and the storage is not touched. *)
Lemma signInGoogle_Sequelize_with_email
      (ext : Externals) (su secret : value) (w : World Sequelize.Store) :
  JS.nullish su = false ->
  JS.truthy (JS.prop su "email") = true ->
  Mutation.signInGoogle Sequelize.User ext su secret w
  = (inr Failure.EmailAlreadyClaimed, w).
Proof.
  intros Hobj Hmail. unfold Mutation.signInGoogle.
  social_with_email Hobj Hmail.
Qed.

Lemma signInFacebook_Sequelize_with_email
      (ext : Externals) (su secret : value) (w : World Sequelize.Store) :
  JS.nullish su = false ->
  JS.truthy (JS.prop su "email") = true ->
  Mutation.signInFacebook Sequelize.User ext su secret w
  = (inr Failure.EmailAlreadyClaimed, w).
Proof.
  intros Hobj Hmail. unfold Mutation.signInFacebook.
  social_with_email Hobj Hmail.
Qed.

(** A social profile without an email is answered with [SignUpFailed]; the
    find-or-create has run on the storage all the same. *)
Lemma signInGoogle_Sequelize_without_email
      (ext : Externals) (su secret : value) (w : World Sequelize.Store) :
  JS.nullish su = false ->
  JS.truthy (JS.prop su "email") = false ->
  exists st',
    Mutation.signInGoogle Sequelize.User ext su secret w
    = (inr Failure.SignUpFailed, {| db := st'; pubsub := pubsub w |}).
Proof.
  intros Hobj Hmail. unfold Mutation.signInGoogle.
  social_without_email Hobj Hmail SOCIAL_NAME.GOOGLE w.
Qed.

Lemma signInFacebook_Sequelize_without_email
      (ext : Externals) (su secret : value) (w : World Sequelize.Store) :
  JS.nullish su = false ->
  JS.truthy (JS.prop su "email") = false ->
  exists st',
    Mutation.signInFacebook Sequelize.User ext su secret w
    = (inr Failure.SignUpFailed, {| db := st'; pubsub := pubsub w |}).
Proof.
  intros Hobj Hmail. unfold Mutation.signInFacebook.
  social_without_email Hobj Hmail SOCIAL_NAME.FACEBOOK w.
Qed.

(** C2.  The last scenario of section 8 on the source: the first Google
    sign-in with native id ["g1"] creates the account keyed ["google_g1"] in
    the storage and is answered with [SignUpFailed] instead of the account;
    the second sign-in finds that account, creates nothing, and is answered
    with [SignUpFailed] again.  In both runs the find-or-create result was a
    created or a found row. *)
Theorem social_signIn_fails_though_row_exists :
  Mutation.signInGoogle Sequelize.User Sample.ext Scenario.g1 Scenario.secret
                        (Sample.world Sequelize.empty)
  = (inr Failure.SignUpFailed, Sample.world after_google_g1)
  /\ Sequelize.findOrCreate
       (getOrSignUp_options Scenario.g1 SOCIAL_NAME.GOOGLE) Sequelize.empty
     = (VPromise (VArr [google_g1_row; VBool true]), after_google_g1)
  /\ Mutation.signInGoogle Sequelize.User Sample.ext Scenario.g1 Scenario.secret
                           (Sample.world after_google_g1)
     = (inr Failure.SignUpFailed, Sample.world after_google_g1)
  /\ Sequelize.findOrCreate
       (getOrSignUp_options Scenario.g1 SOCIAL_NAME.GOOGLE) after_google_g1
     = (VPromise (VArr [google_g1_row; VBool false]), after_google_g1).
Proof. repeat split; reflexivity. Qed.

(** Awaiting the find-or-create would not be enough: [hasUser] answers
    [false] on the pair of a freshly created row, so a storage that hands
    that pair over directly still gets [SignUpFailed] on the first
    sign-in, and succeeds only from the second one on. *)
Lemma social_signIn_SyncDouble_first_then_second :
  fst (Mutation.signInGoogle SyncDouble.User Sample.ext Scenario.g1
                             Scenario.secret (Sample.world Sequelize.empty))
  = inr Failure.SignUpFailed
  /\ fst (Mutation.signInGoogle SyncDouble.User Sample.ext Scenario.g1
                                Scenario.secret (Sample.world after_google_g1))
     = inl (VObj [("token", VStr "jwt:user-0:s3cret");
                  ("user", google_g1_row)]).
Proof. split; reflexivity. Qed.

(** C3.  A social sign-in whose profile carries an email that belongs to an
    existing local account fails with [EmailAlreadyClaimed], for Google and
    for Facebook, whatever else the storage holds and in whatever order its
    rows were created; the storage and the hub are left as they were. *)
Theorem social_signIn_with_local_email_is_rejected
        (ext : Externals) (su secret : value) (w : World Sequelize.Store) :
  JS.nullish su = false ->
  JS.truthy (JS.prop su "email") = true ->
  (claimed_by_local SOCIAL_NAME.GOOGLE (JS.prop su "email") (db w) = true ->
   Mutation.signInGoogle Sequelize.User ext su secret w
   = (inr Failure.EmailAlreadyClaimed, w))
  /\ (claimed_by_local SOCIAL_NAME.FACEBOOK (JS.prop su "email") (db w) = true ->
      Mutation.signInFacebook Sequelize.User ext su secret w
      = (inr Failure.EmailAlreadyClaimed, w)).
Proof.
  intros Hobj Hmail; split; intros _.
  - now apply signInGoogle_Sequelize_with_email.
  - now apply signInFacebook_Sequelize_with_email.
Qed.

Lemma social_signIn_with_local_email_is_rejected_witness :
  (claimed_by_local SOCIAL_NAME.GOOGLE (VStr "a@x.com") social_then_local = true
   /\ Mutation.signInGoogle Sequelize.User Sample.ext Scenario.g1_mail
                            Scenario.secret (Sample.world social_then_local)
      = (inr Failure.EmailAlreadyClaimed, Sample.world social_then_local))
  /\ (claimed_by_local SOCIAL_NAME.FACEBOOK (VStr "a@x.com") local_then_social
      = true
      /\ Mutation.signInFacebook Sequelize.User Sample.ext Scenario.g1_mail
                                 Scenario.secret (Sample.world local_then_social)
         = (inr Failure.EmailAlreadyClaimed, Sample.world local_then_social)).
Proof.
  split; (split; [reflexivity | ]).
  - apply (social_signIn_with_local_email_is_rejected
             Sample.ext Scenario.g1_mail Scenario.secret
             (Sample.world social_then_local)); reflexivity.
  - apply (social_signIn_with_local_email_is_rejected
             Sample.ext Scenario.g1_mail Scenario.secret
             (Sample.world local_then_social)); reflexivity.
Defined.

(** ** Profile update *)

(** C6.  When the requester's identifier differs from the identifier of the
    target account, [updateProfile] fails with [Forbidden] and the world is
    the one it started from: the storage is not called (no field of the
    target account is modified) and nothing is published.  This holds for
    every model, since the resolver throws before it reaches the model. *)
Theorem updateProfile_by_other_identity_is_forbidden
        {S : Type} (User : UserModel S) (args auth target : value)
        (w : World S) :
  JS.nullish auth = false ->
  JS.get args "user" = inl target ->
  JS.nullish target = false ->
  JS.strict_eq (JS.prop auth "id") (JS.prop target "id") = false ->
  Mutation.updateProfile User args auth w = (inr Failure.Forbidden, w).
Proof.
  intros Hauth Hargs Htarget Hdiff.
  unfold Mutation.updateProfile, Run.try_catch.
  unfold Run.bind at 1, Run.lift at 1, JS.get at 1; rewrite Hauth.
  unfold Run.bind at 1, Run.lift at 1; rewrite Hargs.
  unfold Run.bind at 1, Run.lift at 1, JS.get at 1; rewrite Htarget.
  rewrite Hdiff; reflexivity.
Qed.

Lemma updateProfile_by_other_identity_is_forbidden_witness :
  Mutation.updateProfile Sequelize.User Scenario.rename_u1 Scenario.as_u2
                         (Sample.world Scenario.with_u1)
  = (inr Failure.Forbidden, Sample.world Scenario.with_u1).
Proof.
  apply (@updateProfile_by_other_identity_is_forbidden
           _ Sequelize.User Scenario.rename_u1 Scenario.as_u2
           (VObj [("id", VStr "u1"); ("name", VStr "New")])
           (Sample.world Scenario.with_u1)); reflexivity.
Defined.

(** A requester that is not signed in ([getUser] gave [null] or
    [undefined]) is turned away as well, with the engine's [TypeError]
    wrapped by the [catch], and the world is again untouched. *)
Lemma updateProfile_without_identity_fails
      {S : Type} (User : UserModel S) (args auth : value) (w : World S) :
  JS.nullish auth = true ->
  exists msg,
    Mutation.updateProfile User args auth w
    = (inr (Error (exn_to_string (TypeError msg))), w).
Proof.
  intros Hauth.
  unfold Mutation.updateProfile, Run.try_catch.
  unfold Run.bind at 1, Run.lift at 1, JS.get at 1; rewrite Hauth.
  eexists; reflexivity.
Qed.

Lemma patch_of_args_is_identity (target row : value) :
  is_row row -> Sequelize.patch (VObj [("user", target)]) row = row.
Proof.
  intros [fs [-> Hkeys]].
  unfold Sequelize.patch; cbn [JS.own_fields].
  f_equal.
  assert (Hin : Forall (fun kv => In (fst kv) Sequelize.columns) fs).
  { rewrite <- Hkeys. apply Forall_forall. intros kv Hkv.
    now apply in_map. }
  clear Hkeys.
  induction Hin as [| [k v] r Hk _ IH]; [reflexivity |].
  cbn [map fst snd]. rewrite IH. f_equal.
  cbn in Hk.
  repeat (destruct Hk as [<- | Hk]; [reflexivity |]).
  contradiction.
Qed.

Lemma new_row_is_row (fields : list (string * value)) (n : nat) :
  is_row (Sequelize.new_row fields n).
Proof.
  eexists; split; [reflexivity |].
  rewrite map_map; cbn [fst]. apply map_id.
Qed.

(** [User.update] called with the resolver's [args], the object
    [{ user: patch }], changes no row: [user] is not a column. *)
Lemma Sequelize_update_with_args_changes_nothing
      (target options ignored : value) (st : Sequelize.Store) :
  Forall is_row (Sequelize.rows st) ->
  snd (Sequelize.update (VObj [("user", target)]) options ignored st) = st.
Proof.
  intros _. reflexivity.
Qed.

(** On the Sequelize model an owner's [updateProfile] never changes the
    storage: it returns and publishes the account as it was stored. *)
Lemma updateProfile_by_owner_leaves_storage
      (target auth : value) (w : World Sequelize.Store) :
  Forall is_row (Sequelize.rows (db w)) ->
  JS.nullish auth = false ->
  JS.nullish target = false ->
  JS.strict_eq (JS.prop auth "id") (JS.prop target "id") = true ->
  let stored :=
    JS.await (fst (Sequelize.findOne
                     (VObj [("where", VObj [("id", JS.prop target "id")]);
                            ("raw", VBool true)]) (db w))) in
  Mutation.updateProfile Sequelize.User (VObj [("user", target)]) auth w
  = (inl stored,
     {| db := db w;
        pubsub := Hub.publish USER_UPDATED (VObj [("user", stored)])
                              (pubsub w) |}).
Proof.
  intros Hrows Hauth Htarget Hsame stored.
  unfold Mutation.updateProfile, Run.try_catch.
  unfold Run.bind at 1, Run.lift at 1, JS.get at 1; rewrite Hauth.
  unfold Run.bind at 1, Run.lift at 1.
  cbn [JS.get JS.nullish JS.prop JS.assoc String.eqb Ascii.eqb Bool.eqb].
  unfold Run.bind at 1, Run.lift at 1, JS.get at 1; rewrite Htarget.
  rewrite Hsame; cbn [negb].
  unfold Run.bind at 1, Run.call at 1; cbn [update Sequelize.User].
  pose proof (@Sequelize_update_with_args_changes_nothing
                target (VObj [("where", VObj [("id", JS.prop target "id")])])
                (VObj [("raw", VBool true)]) (db w) Hrows) as Hsnd.
  destruct (Sequelize.update _ _ _ (db w)) as [count st1].
  cbn [snd] in Hsnd; subst st1.
  unfold Run.bind at 1, Run.call at 1; cbn [db findOne Sequelize.User].
  subst stored.
  destruct (Sequelize_findOne_is_promise
              (VObj [("where", VObj [("id", JS.prop target "id")]);
                     ("raw", VBool true)]) (db w)) as [r Hr].
  rewrite Hr; reflexivity.
Qed.

(** C5.  The update scenario of section 8 on the source: account ["u1"],
    stored with name ["Old"], updates its own profile with
    [{name: "New"}].  The resolver succeeds, but the account it returns, the
    account it publishes and the account left in the storage all still have
    the name ["Old"]: the patch was handed to the storage under the key
    [user] and no field was applied. *)
Theorem updateProfile_by_owner_applies_no_field :
  Mutation.updateProfile Sequelize.User Scenario.rename_u1 Scenario.as_u1
                         (Sample.world Scenario.with_u1)
  = (inl Scenario.u1_row,
     {| db := Scenario.with_u1;
        pubsub := {| subscribers := [];
                     published := [(USER_UPDATED,
                                    VObj [("user", Scenario.u1_row)])] |} |})
  /\ JS.prop Scenario.u1_row "name" = VStr "Old"
  /\ Sequelize.findOne (VObj [("where", VObj [("id", VStr "u1")])])
                       Scenario.with_u1
     = (VPromise Scenario.u1_row, Scenario.with_u1).
Proof. repeat split; reflexivity. Qed.

(** The same patch handed over as the storage expects it, [args.user]
    instead of [args], does rename the account. *)
Lemma Sequelize_update_with_args_user_renames :
  JS.prop
    (JS.await
       (fst (Sequelize.findOne
               (VObj [("where", VObj [("id", VStr "u1")])])
               (snd (Sequelize.update
                       (JS.prop Scenario.rename_u1 "user")
                       (VObj [("where", VObj [("id", VStr "u1")])])
                       (VObj [("raw", VBool true)])
                       Scenario.with_u1)))))
    "name"
  = VStr "New".
Proof. reflexivity. Qed.

(** ** Subscriptions *)

(** The predicate of [userUpdated] throws on every payload shaped as
    [updateProfile] publishes it, [{ user }]: the payload has no
    [userUpdated]. *)
Lemma userUpdated_filter_throws_on_published (user variables : value) :
  Subscription.userUpdated_filter (VObj [("user", user)]) variables
  = inr (TypeError "Cannot read property 'id' of undefined").
Proof. reflexivity. Qed.

(** On a payload keyed [userUpdated] the predicate compares the
    identifiers. *)
Lemma userUpdated_filter_on_keyed_payload (account variables : value) :
  JS.nullish account = false ->
  JS.nullish variables = false ->
  Subscription.userUpdated_filter (VObj [("userUpdated", account)]) variables
  = inl (VBool (JS.strict_eq (JS.prop account "id") (JS.prop variables "id"))).
Proof.
  intros Ha Hv. unfold Subscription.userUpdated_filter.
  cbn [JS.get JS.nullish JS.prop JS.assoc String.eqb Ascii.eqb Bool.eqb].
  unfold JS.get. now rewrite Ha, Hv.
Qed.

(** C4.  A subscriber of [userUpdated] registered for account ["u1"], and
    a successful [updateProfile] of account ["u1"]: one update of that
    account is published on the topic, and the subscriber receives nothing;
    its iterator is rejected with the [TypeError] of the predicate. *)
Theorem userUpdated_subscriber_misses_own_update :
  let run := Mutation.updateProfile Sequelize.User Scenario.rename_u1
                                    Scenario.as_u1 watching_u1 in
  fst run = inl Scenario.u1_row
  /\ published (pubsub (snd run))
     = [(USER_UPDATED, VObj [("user", Scenario.u1_row)])]
  /\ JS.prop Scenario.u1_row "id" = JS.prop Scenario.as_u1 "id"
  /\ map Hub.received (subscribers (pubsub (snd run))) = [[]]
  /\ map sub_stream (subscribers (pubsub (snd run)))
     = [[Rejected (TypeError "Cannot read property 'id' of undefined")]].
Proof. repeat split; reflexivity. Qed.

(** *** The account-created topic *)

Lemma subscribers_publish_all (evs : list (string * value)) (h : PubSub) :
  subscribers (publish_all evs h) = map (deliver_all evs) (subscribers h).
Proof.
  revert h; induction evs as [| ev evs IH]; intros h; cbn.
  - now rewrite map_id.
  - unfold publish_all in IH. rewrite IH; cbn [Hub.publish subscribers].
    now rewrite map_map.
Qed.

Lemma published_publish_all (evs : list (string * value)) (h : PubSub) :
  published (publish_all evs h) = (published h ++ evs)%list.
Proof.
  revert h; induction evs as [| [t p] evs IH]; intros h; cbn.
  - now rewrite app_nil_r.
  - unfold publish_all in IH. rewrite IH; cbn. now rewrite <- app_assoc.
Qed.

Lemma subscribers_register_all (argss : list value) (h : PubSub) :
  subscribers
    (fold_left (fun h a => Hub.register (Subscription.userAdded a) h) argss h)
  = (subscribers h ++ map Subscription.userAdded argss)%list.
Proof.
  revert h; induction argss as [| a r IH]; intros h; cbn [fold_left map].
  - now rewrite app_nil_r.
  - rewrite IH; cbn. now rewrite <- app_assoc.
Qed.

(** A subscriber without a predicate gets every payload of its topic. *)
Lemma unfiltered_stream (evs : list (string * value)) (s : Subscriber) :
  sub_filter s = None ->
  sub_stream (deliver_all evs s)
  = (sub_stream s ++ map Delivered (payloads_on (sub_topic s) evs))%list.
Proof.
  revert s; induction evs as [| [t p] evs IH]; intros s Hnone; cbn.
  - now rewrite app_nil_r.
  - unfold deliver_all, payloads_on in IH. unfold Hub.deliver at 2; cbn [fst snd].
    destruct (String.eqb (sub_topic s) t) eqn:Ht.
    + rewrite Hnone, IH by assumption; cbn.
      now rewrite <- app_assoc.
    + now rewrite IH.
Qed.

(** C9.  The subscribers of [userAdded] are registered without a predicate:
    whatever arguments they subscribed with, after any sequence of
    publications on any topics each of them holds every payload published
    on [USER_ADDED] since its registration, all of them and in publish
    order. *)
Theorem userAdded_subscribers_receive_every_creation
        (argss : list value) (h : PubSub) (evs : list (string * value)) :
  (forall args, sub_filter (Subscription.userAdded args) = None)
  /\ skipn (length (subscribers h))
           (map sub_stream
                (subscribers
                   (publish_all evs
                      (fold_left
                         (fun h a => Hub.register (Subscription.userAdded a) h)
                         argss h))))
     = map (fun _ => map Delivered (payloads_on USER_ADDED evs)) argss.
Proof.
  split; [reflexivity |].
  rewrite subscribers_publish_all, subscribers_register_all.
  rewrite !map_app, skipn_app, !length_map, Nat.sub_diag.
  rewrite skipn_all2 by (rewrite !length_map; lia).
  cbn [skipn app]. rewrite !map_map.
  apply map_ext; intros a.
  now rewrite unfiltered_stream.
Qed.

(** ** Local sign-up: what is stored and what is published *)

Lemma assoc_set_same (k : string) (x : value) (fs : list (string * value)) :
  JS.assoc k (JS.set k x fs) = Some x.
Proof.
  induction fs as [| [k' v] r IH]; cbn.
  - now rewrite String.eqb_refl.
  - destruct (String.eqb k k') eqn:E; cbn; now rewrite E.
Qed.

Lemma userToCreate_password (user hash : value) :
  JS.prop (Mutation.userToCreate user hash) "password" = hash.
Proof.
  unfold Mutation.userToCreate, JS.spread; cbn [fold_left fst snd JS.prop].
  now rewrite assoc_set_same.
Qed.

(** What a [signUp] that succeeds publishes, on any model: the payload
    published on [USER_ADDED] is [{ userAdded: createdUser }], where
    [createdUser] is the account returned to the caller, exactly as the
    storage answered the creation of [{ ...user, password: hash }]: nothing
    is taken out of it, and the object handed to the storage carries the
    password hash. *)
Theorem signUp_publishes_the_created_account_whole
        {S : Type} (User : UserModel S) (ext : Externals)
        (user secret r : value) (w w' : World S) :
  Mutation.signUp User ext user secret w = (inl r, w') ->
  let hash := JS.await (encryptPassword ext (JS.prop user "password")) in
  let looked := snd (findOne User
                       (isSignedIn_options (JS.prop user "email") (VObj []))
                       (db w)) in
  let createdUser :=
    JS.await (fst (create User (Mutation.userToCreate user hash)
                          (VObj [("raw", VBool true)]) looked)) in
  JS.prop r "user" = createdUser
  /\ pubsub w'
     = Hub.publish USER_ADDED (VObj [("userAdded", createdUser)]) (pubsub w)
  /\ JS.prop (Mutation.userToCreate user hash) "password" = hash.
Proof.
  intros Hrun hash looked createdUser.
  unfold Mutation.signUp, isSignedIn, Run.bind, Run.lift, Run.call, Run.ret,
    Run.throw, Run.publish, JS.get in Hrun.
  destruct (JS.nullish user); [discriminate |].
  fold looked in Hrun.
  destruct (findOne User (isSignedIn_options (JS.prop user "email") (VObj []))
                    (db w)) as [emailUser st1] eqn:Hlook.
  cbn [snd] in looked. subst looked.
  destruct (JS.truthy emailUser); cbn in Hrun; [discriminate |].
  fold hash in Hrun.
  destruct (create User (Mutation.userToCreate user hash)
                   (VObj [("raw", VBool true)]) st1) as [created st2] eqn:Hcr.
  cbn [fst] in createdUser. fold createdUser in Hrun.
  destruct (JS.nullish createdUser); [discriminate |].
  injection Hrun as <- <-.
  repeat split.
  apply userToCreate_password.
Qed.



(** ** The verified flag *)

Lemma getOrSignUp_defaults_verified (socialUser socialName : value) :
  JS.prop (getOrSignUp_defaults socialUser socialName) "verified"
  = JS.or (JS.prop socialUser "email") (VBool false).
Proof. reflexivity. Qed.

(** [email || false] is the boolean [true] only when [email] itself is. *)
Lemma or_false_is_true_only_for_true (email : value) :
  JS.or email (VBool false) = VBool true <-> email = VBool true.
Proof.
  unfold JS.or. split.
  - destruct (JS.truthy email); [tauto | discriminate].
  - now intros ->.
Qed.

(** A present email is itself the value of [verified]. *)
Lemma verified_of_present_email (socialUser socialName : value) :
  JS.truthy (JS.prop socialUser "email") = true ->
  JS.prop (getOrSignUp_defaults socialUser socialName) "verified"
  = JS.prop socialUser "email".
Proof.
  intros H. rewrite getOrSignUp_defaults_verified. unfold JS.or. now rewrite H.
Qed.

Lemma assoc_set_other (k k' : string) (x : value)
      (fs : list (string * value)) :
  String.eqb k' k = false ->
  JS.assoc k' (JS.set k x fs) = JS.assoc k' fs.
Proof.
  intros Hkk. induction fs as [| [k0 v] r IH]; cbn.
  - now rewrite Hkk.
  - destruct (String.eqb k k0) eqn:E; cbn.
    + apply String.eqb_eq in E; subst k0. now rewrite Hkk.
    + now rewrite IH.
Qed.



(** ** The two social resolvers side by side *)

Ltac social_answer_steps Hobj su name :=
  unfold Run.bind at 1, Run.lift at 1, JS.get at 1; rewrite Hobj;
  unfold Run.try_catch, Run.bind at 1, social_answer, after_check;
  destruct (JS.truthy (JS.prop _ "email")) eqn:Hmail;
  [ unfold Run.bind at 1, isSignedInBySocial, Run.bind at 1, Run.lift at 1,
      JS.get at 1; rewrite Hobj;
    unfold isSignedIn, Run.bind at 1, Run.lift at 1, JS.get at 1;
    rewrite Hobj;
    unfold Run.bind at 1, Run.call at 1;
    fold (social_lookup su name);
    destruct (findOne _ (social_lookup su name) _) as [emailUser st1];
    cbn [fst snd andb];
    destruct (JS.truthy emailUser); cbn [JS.truthy Run.ret Run.throw fst];
    [ reflexivity | ]
  | cbn [andb Run.ret] ];
  unfold Run.bind at 1, getOrSignUp, Run.bind at 1, Run.lift at 1, JS.get at 1;
  rewrite Hobj; unfold Run.bind at 1, Run.call at 1; cbn [db];
  destruct (findOrCreate _ (getOrSignUp_options su name) _)
    as [foundUser st2];
  cbn [fst];
  (destruct (hasUser foundUser); [ | reflexivity ]);
  unfold Run.lift, JS.get_index;
  (destruct (JS.nullish foundUser); [ reflexivity | ]);
  (destruct (JS.truthy (JS.index foundUser 0)) eqn:Huser;
   cbn [negb Run.throw fst]; [ | reflexivity ]);
  unfold Run.bind, Run.lift, Run.ret, JS.get;
  (destruct (JS.nullish (JS.index foundUser 0)) eqn:Hnull;
   [ destruct (JS.index foundUser 0); discriminate | reflexivity ]).

(** Each social resolver, on any model, answers [social_answer] of the
    model's two responses. *)
Lemma signInGoogle_answer
      {S : Type} (User : UserModel S) (ext : Externals)
      (su secret : value) (w : World S) :
  JS.nullish su = false ->
  fst (Mutation.signInGoogle User ext su secret w)
  = social_answer ext su secret
      (fst (findOne User (social_lookup su SOCIAL_NAME.GOOGLE) (db w)))
      (fst (findOrCreate User (getOrSignUp_options su SOCIAL_NAME.GOOGLE)
                         (after_check User su SOCIAL_NAME.GOOGLE (db w)))).
Proof.
  intros Hobj. unfold Mutation.signInGoogle.
  social_answer_steps Hobj su SOCIAL_NAME.GOOGLE.
Qed.

Lemma signInFacebook_answer
      {S : Type} (User : UserModel S) (ext : Externals)
      (su secret : value) (w : World S) :
  JS.nullish su = false ->
  fst (Mutation.signInFacebook User ext su secret w)
  = social_answer ext su secret
      (fst (findOne User (social_lookup su SOCIAL_NAME.FACEBOOK) (db w)))
      (fst (findOrCreate User (getOrSignUp_options su SOCIAL_NAME.FACEBOOK)
                         (after_check User su SOCIAL_NAME.FACEBOOK (db w)))).
Proof.
  intros Hobj. unfold Mutation.signInFacebook.
  social_answer_steps Hobj su SOCIAL_NAME.FACEBOOK.
Qed.

Lemma social_key_prefix (socialName social : value) :
  social_key socialName social
  = VStr (JS.to_string socialName ++ "_" ++ JS.to_string social).
Proof. reflexivity. Qed.

(** Without a social profile both resolvers stop at the destructuring,
    before the [try]. *)
Lemma signInGoogle_without_profile
      {S : Type} (User : UserModel S) (ext : Externals)
      (su secret : value) (w : World S) :
  JS.nullish su = true ->
  Mutation.signInGoogle User ext su secret w
  = (inr (TypeError ("Cannot read property 'email' of " ++ JS.type_name su)), w).
Proof.
  intros Hobj.
  unfold Mutation.signInGoogle, Run.bind at 1, Run.lift at 1, JS.get at 1.
  now rewrite Hobj.
Qed.

Lemma signInFacebook_without_profile
      {S : Type} (User : UserModel S) (ext : Externals)
      (su secret : value) (w : World S) :
  JS.nullish su = true ->
  Mutation.signInFacebook User ext su secret w
  = (inr (TypeError ("Cannot read property 'email' of " ++ JS.type_name su)), w).
Proof.
  intros Hobj.
  unfold Mutation.signInFacebook, Run.bind at 1, Run.lift at 1, JS.get at 1.
  now rewrite Hobj.
Qed.

(** C10.  [signInGoogle] and [signInFacebook] on the same social profile,
    secret and imported functions, against models that give the same
    responses to the email lookup (made for a truthy email only) and to
    the find-or-create: the two
    resolvers return the same token-and-user pair or fail with the same
    error.  What they ask of the model differs in the provider name only:
    the pattern [google%] against [facebook%] and the key prefix [google_]
    against [facebook_]. *)
Theorem signInGoogle_signInFacebook_agree
        {S1 S2 : Type} (U1 : UserModel S1) (U2 : UserModel S2)
        (ext : Externals) (su secret : value)
        (w1 : World S1) (w2 : World S2) :
  (JS.truthy (JS.prop su "email") = true ->
   fst (findOne U1 (social_lookup su SOCIAL_NAME.GOOGLE) (db w1))
   = fst (findOne U2 (social_lookup su SOCIAL_NAME.FACEBOOK) (db w2))) ->
  fst (findOrCreate U1 (getOrSignUp_options su SOCIAL_NAME.GOOGLE)
                    (after_check U1 su SOCIAL_NAME.GOOGLE (db w1)))
  = fst (findOrCreate U2 (getOrSignUp_options su SOCIAL_NAME.FACEBOOK)
                      (after_check U2 su SOCIAL_NAME.FACEBOOK (db w2))) ->
  fst (Mutation.signInGoogle U1 ext su secret w1)
  = fst (Mutation.signInFacebook U2 ext su secret w2)
  /\ JS.prop (JS.prop (getOrSignUp_options su SOCIAL_NAME.GOOGLE) "where")
             "social"
     = VStr ("google_" ++ JS.to_string (JS.prop su "social"))
  /\ JS.prop (JS.prop (getOrSignUp_options su SOCIAL_NAME.FACEBOOK) "where")
             "social"
     = VStr ("facebook_" ++ JS.to_string (JS.prop su "social")).
Proof.
  intros Hlookup Hfound.
  split; [| split; reflexivity].
  destruct (JS.nullish su) eqn:Hobj.
  - now rewrite signInGoogle_without_profile, signInFacebook_without_profile.
  - rewrite signInGoogle_answer, signInFacebook_answer by assumption.
    rewrite Hfound. unfold social_answer.
    destruct (JS.truthy (JS.prop su "email")); [| reflexivity].
    now rewrite Hlookup.
Qed.

Lemma signInGoogle_signInFacebook_agree_witness :
  fst (Mutation.signInGoogle
         (Replay.User VNull (VArr [Scenario.u1_row; VBool false]))
         Sample.ext Scenario.g1_mail Scenario.secret Replay.world)
  = fst (Mutation.signInFacebook
           (Replay.User VNull (VArr [Scenario.u1_row; VBool false]))
           Sample.ext Scenario.g1_mail Scenario.secret Replay.world)
  /\ JS.prop (JS.prop (getOrSignUp_options Scenario.g1_mail SOCIAL_NAME.GOOGLE)
                      "where") "social"
     = VStr "google_g1"
  /\ JS.prop (JS.prop (getOrSignUp_options Scenario.g1_mail SOCIAL_NAME.FACEBOOK)
                      "where") "social"
     = VStr "facebook_g1".
Proof.
  apply (@signInGoogle_signInFacebook_agree
           _ _ (Replay.User VNull (VArr [Scenario.u1_row; VBool false]))
           (Replay.User VNull (VArr [Scenario.u1_row; VBool false]))
           Sample.ext Scenario.g1_mail Scenario.secret
           Replay.world Replay.world); reflexivity.
Defined.

(** The common answer in the witness is a success. *)
Lemma replayed_signIn_succeeds :
  fst (Mutation.signInGoogle
         (Replay.User VNull (VArr [Scenario.u1_row; VBool false]))
         Sample.ext Scenario.g1_mail Scenario.secret Replay.world)
  = inl (VObj [("token", VStr "jwt:u1:s3cret"); ("user", Scenario.u1_row)]).
Proof. reflexivity. Qed.

(** On the Sequelize model the two resolvers agree on every request and
    every storage: both fail, and with the same error. *)
Lemma signInGoogle_signInFacebook_agree_on_Sequelize
      (ext : Externals) (su secret : value) (w : World Sequelize.Store) :
  fst (Mutation.signInGoogle Sequelize.User ext su secret w)
  = fst (Mutation.signInFacebook Sequelize.User ext su secret w)
  /\ exists e, fst (Mutation.signInGoogle Sequelize.User ext su secret w)
               = inr e.
Proof.
  destruct (JS.nullish su) eqn:Hobj.
  - rewrite signInGoogle_without_profile, signInFacebook_without_profile
      by assumption.
    cbn; eauto.
  - destruct (JS.truthy (JS.prop su "email")) eqn:Hmail.
    + rewrite signInGoogle_Sequelize_with_email,
        signInFacebook_Sequelize_with_email by assumption.
      cbn; eauto.
    + destruct (@signInGoogle_Sequelize_without_email ext su secret w Hobj Hmail)
        as [st1 ->].
      destruct (@signInFacebook_Sequelize_without_email ext su secret w Hobj Hmail)
        as [st2 ->].
      cbn; eauto.
Qed.

(** ** The earlier revision on the same scenarios *)

(** The sign-up scenario of section 8 on the earlier [signUp], against the
    same Sequelize model: the first sign-up with a fresh email succeeds with
    a token and the created account, the second one with the same email is
    refused. *)
Lemma Legacy_signUp_once_then_conflict :
  Legacy.signUp Sequelize.User Sample.ext
                (VObj [("user", Scenario.alice)]) Scenario.secret
                (Sample.world Sequelize.empty)
  = (inl (VObj [("token", VStr "jwt:user-0:s3cret");
                ("user", alice_row "hash:p")]),
     after_alice "hash:p")
  /\ fst (Legacy.signUp Sequelize.User Sample.ext
                        (VObj [("user", Scenario.alice)]) Scenario.secret
                        (after_alice "hash:p"))
     = inr (Error "Email for current user is already signed up.").
Proof. split; reflexivity. Qed.

(** The social scenario of section 8 on the earlier [signInFacebook]: the
    first sign-in creates the account and returns it, the second returns the
    same account. *)
Lemma Legacy_signInFacebook_creates_then_finds :
  let first := Legacy.signInFacebook Sequelize.User Sample.ext
                 (VObj [("socialUser", Scenario.g1)]) Scenario.secret
                 (Sample.world Sequelize.empty) in
  fst first = inl (VObj [("token", VStr "jwt:user-0:s3cret");
                         ("user", facebook_g1_row)])
  /\ Sequelize.rows (db (snd first)) = [facebook_g1_row]
  /\ Legacy.signInFacebook Sequelize.User Sample.ext
       (VObj [("socialUser", Scenario.g1)]) Scenario.secret (snd first)
     = (fst first, snd first).
Proof. repeat split; reflexivity. Qed.


(** * Further properties of the resolvers *)

(** ** What reaches the hub *)

Lemma keeps_hub_ret {S A : Type} (a : A) : keeps_hub (@Run.ret S A a).
Proof. intros w; reflexivity. Qed.

Lemma keeps_hub_throw {S A : Type} (e : exn) : keeps_hub (@Run.throw S A e).
Proof. intros w; reflexivity. Qed.

Lemma keeps_hub_lift {S A : Type} (r : result A) : keeps_hub (@Run.lift S A r).
Proof. intros w; reflexivity. Qed.

Lemma keeps_hub_call {S : Type} (f : S -> value * S) : keeps_hub (Run.call f).
Proof. intros w; unfold Run.call. now destruct (f (db w)). Qed.

Lemma keeps_hub_bind {S A B : Type} (m : M S A) (k : A -> M S B) :
  keeps_hub m -> (forall a, keeps_hub (k a)) -> keeps_hub (Run.bind m k).
Proof.
  intros Hm Hk w. unfold Run.bind.
  specialize (Hm w). destruct (m w) as [[a | e] w1]; cbn [snd] in *.
  - now rewrite Hk.
  - assumption.
Qed.

Lemma keeps_hub_try {S A : Type} (m : M S A) (h : exn -> M S A) :
  keeps_hub m -> (forall e, keeps_hub (h e)) -> keeps_hub (Run.try_catch m h).
Proof.
  intros Hm Hh w. unfold Run.try_catch.
  specialize (Hm w). destruct (m w) as [[a | e] w1]; cbn [snd] in *.
  - assumption.
  - now rewrite Hh.
Qed.

Ltac hub_steps :=
  repeat first
    [ apply keeps_hub_ret | apply keeps_hub_throw | apply keeps_hub_lift
    | apply keeps_hub_call
    | apply keeps_hub_bind; [| intros ?]
    | apply keeps_hub_try; [| intros ?]
    | match goal with
      | |- keeps_hub (if ?b then _ else _) => destruct b
      end ].

Lemma isSignedIn_keeps_hub {S : Type} (User : UserModel S) (user q : value) :
  keeps_hub (isSignedIn User user q).
Proof. unfold isSignedIn. hub_steps. Qed.

Lemma getOrSignUp_keeps_hub {S : Type} (User : UserModel S)
      (socialUser socialName : value) :
  keeps_hub (getOrSignUp User socialUser socialName).
Proof. unfold getOrSignUp. hub_steps. Qed.

(** X1.  A social sign-in never publishes: whatever the model answers and
    whether the resolver succeeds or fails, the hub after [signInGoogle]
    and after [signInFacebook] is the hub before, subscribers' streams
    included. *)
Theorem social_signIn_never_publishes
        {S : Type} (User : UserModel S) (ext : Externals)
        (su secret : value) (w : World S) :
  pubsub (snd (Mutation.signInGoogle User ext su secret w)) = pubsub w
  /\ pubsub (snd (Mutation.signInFacebook User ext su secret w)) = pubsub w.
Proof.
  split; revert w.
  - change (keeps_hub (Mutation.signInGoogle User ext su secret)).
    unfold Mutation.signInGoogle, isSignedInBySocial.
    hub_steps; solve [apply isSignedIn_keeps_hub | apply getOrSignUp_keeps_hub].
  - change (keeps_hub (Mutation.signInFacebook User ext su secret)).
    unfold Mutation.signInFacebook, isSignedInBySocial.
    hub_steps; solve [apply isSignedIn_keeps_hub | apply getOrSignUp_keeps_hub].
Qed.

(** ** How a social sign-in ends *)

Lemma social_answer_failure (ext : Externals) (su secret eu fu : value)
      (e : exn) :
  social_answer ext su secret eu fu = inr e -> exists msg, e = Error msg.
Proof.
  unfold social_answer, Failure.EmailAlreadyClaimed, Failure.SignUpFailed.
  destruct (JS.truthy (JS.prop su "email") && JS.truthy eu);
    [intros [= <-]; eauto |].
  destruct (hasUser fu); [| intros [= <-]; eauto].
  destruct (JS.get_index fu 0) as [user | e0]; [| intros [= <-]; eauto].
  destruct (negb (JS.truthy user)); [intros [= <-]; eauto | discriminate].
Qed.



(** X2.  With a social profile at hand, a social sign-in fails only with a
    plain [Error]: whatever is thrown inside the [try], the resolver's own
    errors and the engine's [TypeError] alike, comes out as
    [new Error(err)]. *)
Theorem social_signIn_fails_with_plain_Error
        {S : Type} (User : UserModel S) (ext : Externals)
        (su secret : value) (w : World S) (e : exn) :
  JS.nullish su = false ->
  fst (Mutation.signInGoogle User ext su secret w) = inr e
  \/ fst (Mutation.signInFacebook User ext su secret w) = inr e ->
  exists msg, e = Error msg.
Proof.
  intros Hobj [H | H].
  - rewrite signInGoogle_answer in H by assumption.
    eapply social_answer_failure; eassumption.
  - rewrite signInFacebook_answer in H by assumption.
    eapply social_answer_failure; eassumption.
Qed.

Lemma social_signIn_fails_with_plain_Error_witness :
  exists msg, Failure.SignUpFailed = Error msg.
Proof.
  apply (@social_signIn_fails_with_plain_Error
           _ Sequelize.User Sample.ext Scenario.g1 Scenario.secret
           (Sample.world Sequelize.empty) Failure.SignUpFailed).
  - reflexivity.
  - left; reflexivity.
Defined.




(** An object with the properties [0] and [1] of a found pair is taken as
    the pair is. *)
Lemma signIn_on_array_like_response :
  fst (Mutation.signInGoogle
         (Replay.User VNull (VObj [("0", Scenario.u1_row); ("1", VBool false)]))
         Sample.ext Scenario.g1 Scenario.secret Replay.world)
  = inl (VObj [("token", VStr "jwt:u1:s3cret"); ("user", Scenario.u1_row)]).
Proof. reflexivity. Qed.

(** ** How a sign-up and a profile update end *)

(** X5.  A [signUp] that fails has published nothing, on any model:
    the destructuring, the guard, the creation and the read of
    [createdUser.id] all stand before [pubsub.publish], the last statement
    before the [return]. *)
Theorem signUp_failure_publishes_nothing
        {S : Type} (User : UserModel S) (ext : Externals)
        (user secret : value) (w w' : World S) (e : exn) :
  Mutation.signUp User ext user secret w = (inr e, w') ->
  pubsub w' = pubsub w.
Proof.
  intros Hrun.
  unfold Mutation.signUp, isSignedIn, Run.bind, Run.lift, Run.call, Run.ret,
    Run.throw, Run.publish, JS.get in Hrun.
  destruct (JS.nullish user); [now injection Hrun as _ <- |].
  destruct (findOne User (isSignedIn_options (JS.prop user "email") (VObj []))
                    (db w)) as [emailUser st1].
  destruct (JS.truthy emailUser); cbn in Hrun; [now injection Hrun as _ <- |].
  destruct (create User _ _ st1) as [created st2].
  destruct (JS.nullish (JS.await created)); [| discriminate].
  now injection Hrun as _ <-.
Qed.

Lemma signUp_failure_publishes_nothing_witness :
  pubsub (Sample.world Sequelize.empty) = pubsub (Sample.world Sequelize.empty).
Proof.
  exact (@signUp_failure_publishes_nothing
           _ Sequelize.User Sample.ext Scenario.alice Scenario.secret
           (Sample.world Sequelize.empty) (Sample.world Sequelize.empty)
           Failure.AlreadySignedUp eq_refl).
Defined.

(** X6.  The token of a successful [signUp] is the one [signIn] issues for
    the identifier of the account it returns: the inline [jwt.sign] of
    [signUp] and the helper of the social resolvers sign the same payload,
    [{ userId, role: Role.User }], with the same secret. *)
Theorem signUp_token_is_signIn_of_created_id
        {S : Type} (User : UserModel S) (ext : Externals)
        (user secret r : value) (w w' : World S) :
  Mutation.signUp User ext user secret w = (inl r, w') ->
  r = VObj [("token", signIn ext (JS.prop (JS.prop r "user") "id") secret);
            ("user", JS.prop r "user")]
  /\ JS.nullish (JS.prop r "user") = false.
Proof.
  intros Hrun.
  unfold Mutation.signUp, isSignedIn, Run.bind, Run.lift, Run.call, Run.ret,
    Run.throw, Run.publish, JS.get in Hrun.
  destruct (JS.nullish user); [discriminate |].
  destruct (findOne User _ (db w)) as [emailUser st1].
  destruct (JS.truthy emailUser); cbn in Hrun; [discriminate |].
  destruct (create User _ _ st1) as [created st2].
  destruct (JS.nullish (JS.await created)) eqn:Hnull; [discriminate |].
  injection Hrun as <- <-. split; [reflexivity | exact Hnull].
Qed.

Lemma signUp_token_is_signIn_of_created_id_witness :
  VObj [("token", VStr "jwt:user-0:s3cret"); ("user", alice_row "hash:p")]
  = VObj [("token", signIn Sample.ext (JS.prop (alice_row "hash:p") "id")
                           Scenario.secret);
          ("user", alice_row "hash:p")]
  /\ JS.nullish (alice_row "hash:p") = false.
Proof.
  exact (@signUp_token_is_signIn_of_created_id
           _ SyncDouble.User Sample.ext Scenario.alice Scenario.secret
           (VObj [("token", VStr "jwt:user-0:s3cret");
                  ("user", alice_row "hash:p")])
           (Sample.world Sequelize.empty) (after_alice "hash:p") eq_refl).
Defined.

(** The [where] and the read of [updateProfile]. *)
Lemma updateProfile_cases
      {S : Type} (User : UserModel S) (args auth : value) (w : World S) :
  (exists msg, Mutation.updateProfile User args auth w = (inr (Error msg), w))
  \/ (JS.strict_eq (JS.prop auth "id") (JS.prop (JS.prop args "user") "id")
      = true
      /\ let byId := VObj [("id", JS.prop (JS.prop args "user") "id")] in
         let updated :=
           snd (update User args (VObj [("where", byId)])
                       (VObj [("raw", VBool true)]) (db w)) in
         let read := findOne User (VObj [("where", byId); ("raw", VBool true)])
                             updated in
         Mutation.updateProfile User args auth w
         = (inl (JS.await (fst read)),
            {| db := snd read;
               pubsub := Hub.publish USER_UPDATED
                           (VObj [("user", JS.await (fst read))])
                           (pubsub w) |})).
Proof.
  unfold Mutation.updateProfile, Run.try_catch, Run.bind, Run.lift, Run.call,
    Run.ret, Run.throw, Run.publish, JS.get.
  destruct (JS.nullish auth); [left; eauto |].
  destruct (JS.nullish args); [left; eauto |].
  destruct (JS.nullish (JS.prop args "user")); [left; eauto |].
  destruct (JS.strict_eq _ _); cbn [negb]; [| left; eauto].
  right. split; [reflexivity |]. cbv zeta.
  destruct (update User args _ _ (db w)) as [count st1]; cbn [snd db].
  destruct (findOne User _ st1) as [found st2]; reflexivity.
Qed.

(** X7.  [updateProfile] succeeds only for the owner: when it returns an
    account, the requester's identifier is strictly equal to
    [args.user.id]; the account returned is the one read back after the
    update, and exactly one event is published, on [USER_UPDATED], whose
    payload [{ user }] carries that same account. *)
Theorem updateProfile_success_shape
        {S : Type} (User : UserModel S) (args auth r : value)
        (w w' : World S) :
  Mutation.updateProfile User args auth w = (inl r, w') ->
  JS.strict_eq (JS.prop auth "id") (JS.prop (JS.prop args "user") "id") = true
  /\ pubsub w' = Hub.publish USER_UPDATED (VObj [("user", r)]) (pubsub w)
  /\ let byId := VObj [("id", JS.prop (JS.prop args "user") "id")] in
     let updated :=
       snd (update User args (VObj [("where", byId)])
                   (VObj [("raw", VBool true)]) (db w)) in
     let read := findOne User (VObj [("where", byId); ("raw", VBool true)])
                         updated in
     r = JS.await (fst read) /\ db w' = snd read.
Proof.
  intros Hrun.
  destruct (updateProfile_cases User args auth w) as [[msg H] | [Hsame H]].
  - rewrite H in Hrun; discriminate.
  - cbv zeta in *. rewrite H in Hrun. injection Hrun as <- <-.
    repeat split; assumption.
Qed.

Lemma updateProfile_success_shape_witness :
  JS.strict_eq (JS.prop Scenario.as_u1 "id")
               (JS.prop (JS.prop Scenario.rename_u1 "user") "id") = true
  /\ pubsub (snd (Mutation.updateProfile Sequelize.User Scenario.rename_u1
                    Scenario.as_u1 (Sample.world Scenario.with_u1)))
     = Hub.publish USER_UPDATED (VObj [("user", Scenario.u1_row)]) Hub.empty.
Proof.
  destruct (@updateProfile_success_shape
              _ Sequelize.User Scenario.rename_u1 Scenario.as_u1
              Scenario.u1_row (Sample.world Scenario.with_u1)
              (snd (Mutation.updateProfile Sequelize.User Scenario.rename_u1
                      Scenario.as_u1 (Sample.world Scenario.with_u1)))
              eq_refl) as [Hsame [Hpub _]].
  split; [exact Hsame | exact Hpub].
Defined.

(** X8.  An [updateProfile] that fails has published nothing, on any
    model, and its error is a plain [Error]: [pubsub.publish] is the last
    statement before the [return], and whatever is thrown inside the
    [try] is rethrown by the [catch] as [new Error(err)]. *)
Theorem updateProfile_failure_publishes_nothing
        {S : Type} (User : UserModel S) (args auth : value)
        (w w' : World S) (e : exn) :
  Mutation.updateProfile User args auth w = (inr e, w') ->
  pubsub w' = pubsub w /\ exists msg, e = Error msg.
Proof.
  intros Hrun.
  destruct (updateProfile_cases User args auth w) as [[msg H] | [Hsame H]].
  - rewrite H in Hrun. injection Hrun as <- <-. eauto.
  - cbv zeta in H. rewrite H in Hrun; discriminate.
Qed.

Lemma updateProfile_failure_publishes_nothing_witness :
  pubsub (Sample.world Scenario.with_u1) = pubsub (Sample.world Scenario.with_u1)
  /\ exists msg, Failure.Forbidden = Error msg.
Proof.
  exact (@updateProfile_failure_publishes_nothing
           _ Sequelize.User Scenario.rename_u1 Scenario.as_u2
           (Sample.world Scenario.with_u1) (Sample.world Scenario.with_u1)
           Failure.Forbidden eq_refl).
Defined.

(** ** The account-updated topic *)

(** The predicate on a payload that has an account under [userUpdated]. *)
Lemma userUpdated_filter_value (payload variables : value) :
  JS.nullish payload = false ->
  JS.nullish (JS.prop payload "userUpdated") = false ->
  JS.nullish variables = false ->
  Subscription.userUpdated_filter payload variables
  = inl (VBool (JS.strict_eq (JS.prop (JS.prop payload "userUpdated") "id")
                             (JS.prop variables "id"))).
Proof.
  intros Hp Hu Hv. unfold Subscription.userUpdated_filter, JS.get.
  now rewrite Hp, Hu, Hv.
Qed.

Lemma filtered_stream (variables : value) (evs : list (string * value))
      (s : Subscriber) :
  JS.nullish variables = false ->
  Forall keyed_update evs ->
  sub_topic s = USER_UPDATED ->
  sub_filter s
  = Some (fun payload => Subscription.userUpdated_filter payload variables) ->
  sub_stream (deliver_all evs s)
  = (sub_stream s ++ map Delivered (updates_for variables evs))%list.
Proof.
  intros Hv Hevs. revert s.
  induction Hevs as [| [t p] evs Hev _ IH]; intros s Htopic Hfilter.
  - cbn. now rewrite app_nil_r.
  - unfold deliver_all in *; cbn [fold_left fst snd].
    unfold updates_for, payloads_on in *; cbn [filter fst snd map].
    unfold Hub.deliver at 2. rewrite Htopic.
    unfold keyed_update in Hev; cbn [fst snd] in Hev.
    destruct (String.eqb USER_UPDATED t) eqn:Ht.
    + destruct (Hev eq_refl) as [Hp Hu].
      rewrite Hfilter, (@userUpdated_filter_value p variables Hp Hu Hv).
      cbn [map filter].
      destruct (JS.strict_eq _ _).
      * rewrite IH by assumption. cbn. now rewrite <- app_assoc.
      * now rewrite IH.
    + now rewrite IH.
Qed.

(** X9.  A subscriber of [userUpdated] registered with variables [{ id }],
    after any sequence of publications in which the payloads on
    [USER_UPDATED] carry an account under [userUpdated]: its stream holds
    exactly the payloads whose [userUpdated.id] is strictly equal to the
    requested [id], in publish order, nothing of another account and
    nothing of another topic, and no step of it is rejected. *)
Theorem userUpdated_subscriber_gets_its_account_only
        (variables : value) (h : PubSub) (evs : list (string * value)) :
  JS.nullish variables = false ->
  Forall keyed_update evs ->
  skipn (length (subscribers h))
        (map sub_stream
             (subscribers
                (publish_all evs
                   (Hub.register (Subscription.userUpdated variables) h))))
  = [map Delivered (updates_for variables evs)].
Proof.
  intros Hv Hevs.
  rewrite subscribers_publish_all; cbn [Hub.register subscribers].
  rewrite !map_app, skipn_app, !length_map, Nat.sub_diag.
  rewrite skipn_all2 by (rewrite !length_map; lia).
  cbn [skipn app map].
  now rewrite (@filtered_stream variables evs) by (assumption || reflexivity).
Qed.

Lemma userUpdated_subscriber_gets_its_account_only_witness :
  skipn 0
        (map sub_stream
             (subscribers
                (publish_all
                   [(USER_UPDATED, VObj [("userUpdated", Scenario.as_u2)]);
                    (USER_ADDED, VObj [("userAdded", Scenario.u1_row)]);
                    (USER_UPDATED, VObj [("userUpdated", Scenario.u1_row)])]
                   (Hub.register (Subscription.userUpdated Scenario.as_u1)
                                 Hub.empty))))
  = [[Delivered (VObj [("userUpdated", Scenario.u1_row)])]].
Proof.
  apply (@userUpdated_subscriber_gets_its_account_only
           Scenario.as_u1 Hub.empty
           [(USER_UPDATED, VObj [("userUpdated", Scenario.as_u2)]);
            (USER_ADDED, VObj [("userAdded", Scenario.u1_row)]);
            (USER_UPDATED, VObj [("userUpdated", Scenario.u1_row)])]).
  - reflexivity.
  - repeat constructor; discriminate.
Defined.

Lemma received_push_rejected (e : exn) (s : Subscriber) :
  Hub.received (Hub.push (Rejected e) s) = Hub.received s.
Proof.
  unfold Hub.received, Hub.push; cbn [sub_stream].
  rewrite flat_map_app; cbn. now rewrite app_nil_r.
Qed.

(** X10.  What [updateProfile] publishes reaches no subscriber of
    [userUpdated], on any model and for any account: when every subscriber
    of the topic [USER_UPDATED] was made by [userUpdated], whatever the
    variables, a successful [updateProfile] leaves the payloads received
    by every subscriber of the hub as they were. *)
Theorem updateProfile_reaches_no_subscriber
        {S : Type} (User : UserModel S) (args auth r : value)
        (w w' : World S) :
  Mutation.updateProfile User args auth w = (inl r, w') ->
  Forall (fun s => sub_topic s = USER_UPDATED ->
                   exists variables,
                     sub_filter s
                     = sub_filter (Subscription.userUpdated variables))
         (subscribers (pubsub w)) ->
  map Hub.received (subscribers (pubsub w'))
  = map Hub.received (subscribers (pubsub w)).
Proof.
  intros Hrun Hsubs.
  destruct (updateProfile_cases User args auth w) as [[msg H] | [_ H]];
    [rewrite H in Hrun; discriminate |].
  cbv zeta in H. rewrite H in Hrun. injection Hrun as _ <-.
  cbn [pubsub Hub.publish subscribers]. rewrite map_map.
  induction Hsubs as [| s subs Hs _ IH]; [reflexivity |].
  cbn [map]. rewrite IH. f_equal.
  unfold Hub.deliver.
  destruct (String.eqb (sub_topic s) USER_UPDATED) eqn:Ht; [| reflexivity].
  apply String.eqb_eq in Ht. destruct (Hs Ht) as [variables ->].
  cbn [Subscription.userUpdated Hub.withFilter sub_filter].
  rewrite userUpdated_filter_throws_on_published.
  apply received_push_rejected.
Qed.

Lemma updateProfile_reaches_no_subscriber_witness :
  map Hub.received
      (subscribers
         (pubsub (snd (Mutation.updateProfile Sequelize.User Scenario.rename_u1
                         Scenario.as_u1 watching_u1))))
  = map Hub.received (subscribers (pubsub watching_u1)).
Proof.
  apply (@updateProfile_reaches_no_subscriber
           _ Sequelize.User Scenario.rename_u1 Scenario.as_u1 Scenario.u1_row
           watching_u1).
  - reflexivity.
  - repeat constructor. intros _. exists Scenario.as_u1. reflexivity.
Defined.

(** ** Rows in the storage *)

Lemma find_app_last {A : Type} (f : A -> bool) (l : list A) (x : A) :
  find f l = None ->
  find f (l ++ [x]) = if f x then Some x else None.
Proof.
  induction l as [| a l IH]; cbn; [reflexivity |].
  destruct (f a); [discriminate | exact IH].
Qed.

Lemma strict_eq_string (v : value) (s : string) :
  JS.strict_eq v (VStr s) = true -> v = VStr s.
Proof.
  destruct v; cbn; try discriminate.
  intros H. apply String.eqb_eq in H. now subst.
Qed.

(** A created row holds, in every column but the identifier, the value it
    was created with. *)
Lemma new_row_column (fields : list (string * value)) (n : nat) (c : string) :
  In c Sequelize.columns -> c <> "id" ->
  JS.prop (Sequelize.new_row fields n) c = Sequelize.column_value fields c.
Proof.
  intros Hin Hid. cbn in Hin.
  repeat (destruct Hin as [<- | Hin]; [try reflexivity; now elim Hid |]).
  contradiction.
Qed.

(** A row selected by [{ social: key }] has that key. *)
Lemma selected_by_social (key : string) (row : value) :
  Sequelize.where_matches (VObj [("social", VStr key)]) row = true ->
  JS.prop row "social" = VStr key.
Proof.
  unfold Sequelize.where_matches; cbn [JS.own_fields forallb fst snd].
  unfold Sequelize.cond_matches. rewrite andb_true_r.
  apply strict_eq_string.
Qed.

(** [User.findOrCreate] keyed by a social key settles: it answers with a
    row of that key, found or created, and asked again it finds that
    very row and leaves the storage alone. *)
Lemma findOrCreate_settles (o : value) (key : string) (st : Sequelize.Store) :
  JS.prop o "where" = VObj [("social", VStr key)] ->
  Sequelize.column_value
    (JS.spread (JS.own_fields (JS.prop o "where"))
               (JS.own_fields (JS.prop o "defaults"))) "social"
  = VStr key ->
  exists row created,
    Sequelize.findOrCreate o st
    = (VPromise (VArr [row; VBool created]),
       snd (Sequelize.findOrCreate o st))
    /\ JS.prop row "social" = VStr key
    /\ Sequelize.findOrCreate o (snd (Sequelize.findOrCreate o st))
       = (VPromise (VArr [row; VBool false]),
          snd (Sequelize.findOrCreate o st))
    /\ ((Sequelize.lookup (JS.prop o "where") st = Some row
         /\ created = false
         /\ snd (Sequelize.findOrCreate o st) = st)
        \/ (Sequelize.lookup (JS.prop o "where") st = None
            /\ created = true
            /\ Sequelize.rows (snd (Sequelize.findOrCreate o st))
               = (Sequelize.rows st ++ [row])%list)).
Proof.
  intros Hwhere Hsocial.
  destruct (Sequelize.lookup (JS.prop o "where") st) as [row |] eqn:Hlook.
  - assert (Hfoc : Sequelize.findOrCreate o st
                   = (VPromise (VArr [row; VBool false]), st)).
    { unfold Sequelize.findOrCreate. now rewrite Hlook. }
    exists row, false. rewrite Hfoc; cbn [snd]. rewrite Hfoc.
    repeat split; auto.
    unfold Sequelize.lookup in Hlook. apply find_some in Hlook.
    rewrite Hwhere in Hlook. now apply selected_by_social.
  - set (row := Sequelize.new_row
                  (JS.spread (JS.own_fields (JS.prop o "where"))
                             (JS.own_fields (JS.prop o "defaults")))
                  (Sequelize.next_id st)).
    set (st1 := {| Sequelize.rows := (Sequelize.rows st ++ [row])%list;
                   Sequelize.next_id := Datatypes.S (Sequelize.next_id st) |}).
    assert (Hfoc : Sequelize.findOrCreate o st
                   = (VPromise (VArr [row; VBool true]), st1)).
    { unfold Sequelize.findOrCreate. now rewrite Hlook. }
    assert (Hrow : JS.prop row "social" = VStr key).
    { subst row. rewrite new_row_column; [assumption | cbn; tauto | discriminate]. }
    exists row, true. rewrite Hfoc; cbn [snd].
    repeat split; auto.
    unfold Sequelize.findOrCreate, Sequelize.lookup; subst st1;
      cbn [Sequelize.rows].
    unfold Sequelize.lookup in Hlook.
    rewrite (@find_app_last _ _ _ row Hlook), Hwhere.
    unfold Sequelize.where_matches; cbn [JS.own_fields forallb fst snd].
    unfold Sequelize.cond_matches. rewrite Hrow; cbn [JS.strict_eq].
    now rewrite String.eqb_refl.
Qed.

(** On the Sequelize model [getOrSignUp] moves the storage as
    [User.findOrCreate] does. *)
Lemma getOrSignUp_Sequelize_storage (socialUser name : value)
      (w : World Sequelize.Store) :
  JS.nullish socialUser = false ->
  getOrSignUp Sequelize.User socialUser name w
  = (inl VNull,
     {| db := snd (Sequelize.findOrCreate
                     (getOrSignUp_options socialUser name) (db w));
        pubsub := pubsub w |}).
Proof.
  intros Hobj.
  unfold getOrSignUp, Run.bind, Run.lift, Run.call, Run.ret, JS.get.
  rewrite Hobj; cbn [findOrCreate Sequelize.User].
  destruct (Sequelize_findOrCreate_is_promise
              (getOrSignUp_options socialUser name) (db w)) as [r [st' Hr]].
  now rewrite Hr.
Qed.

Lemma signInGoogle_Sequelize_storage
      (ext : Externals) (su secret : value) (w : World Sequelize.Store) :
  JS.nullish su = false ->
  JS.truthy (JS.prop su "email") = false ->
  Mutation.signInGoogle Sequelize.User ext su secret w
  = (inr Failure.SignUpFailed,
     {| db := snd (Sequelize.findOrCreate
                     (getOrSignUp_options su SOCIAL_NAME.GOOGLE) (db w));
        pubsub := pubsub w |}).
Proof.
  intros Hobj Hmail. unfold Mutation.signInGoogle.
  unfold Run.bind at 1, Run.lift at 1, JS.get at 1; rewrite Hobj.
  unfold Run.try_catch, Run.bind at 1; rewrite Hmail.
  unfold Run.ret at 1, Run.bind at 1.
  now rewrite getOrSignUp_Sequelize_storage.
Qed.


(** X11.  One account per social key.  On the Sequelize model, after a
    Google sign-in with a profile without email, the storage holds a row
    whose social key is [`google_${social}`], and a second sign-in with
    the same profile leaves the world exactly as the first one left it: no
    second row is created. *)
Theorem signInGoogle_creates_at_most_one_row
        (ext : Externals) (su secret : value) (w : World Sequelize.Store) :
  JS.nullish su = false ->
  JS.truthy (JS.prop su "email") = false ->
  let w1 := snd (Mutation.signInGoogle Sequelize.User ext su secret w) in
  (exists row,
      In row (Sequelize.rows (db w1))
      /\ JS.prop row "social"
         = social_key SOCIAL_NAME.GOOGLE (JS.prop su "social"))
  /\ snd (Mutation.signInGoogle Sequelize.User ext su secret w1) = w1.
Proof.
  intros Hobj Hmail w1. subst w1.
  rewrite !signInGoogle_Sequelize_storage by assumption. cbn [snd db pubsub].
  destruct (@findOrCreate_settles
              (getOrSignUp_options su SOCIAL_NAME.GOOGLE)
              ("google_" ++ JS.to_string (JS.prop su "social")) (db w)
              eq_refl eq_refl)
    as [row [created [Hfirst [Hkey [Hsecond Hcase]]]]].
  split.
  - exists row. split; [| exact Hkey].
    destruct Hcase as [[Hlook [_ ->]] | [_ [_ ->]]].
    + unfold Sequelize.lookup in Hlook. now apply find_some in Hlook.
    + apply in_or_app; right; now left.
  - now rewrite Hsecond.
Qed.

Lemma signInGoogle_creates_at_most_one_row_witness :
  (exists row,
      In row (Sequelize.rows (db (Sample.world after_google_g1)))
      /\ JS.prop row "social" = VStr "google_g1")
  /\ snd (Mutation.signInGoogle Sequelize.User Sample.ext Scenario.g1
                                Scenario.secret (Sample.world after_google_g1))
     = Sample.world after_google_g1.
Proof.
  apply (@signInGoogle_creates_at_most_one_row
           Sample.ext Scenario.g1 Scenario.secret
           (Sample.world Sequelize.empty)); reflexivity.
Defined.

(** ** The earlier revision on every storage *)

(** A row selected by [{ email }] has that email. *)
Lemma selected_by_email (e : string) (row : value) :
  Sequelize.where_matches (VObj [("email", VStr e)]) row = true ->
  JS.prop row "email" = VStr e.
Proof.
  unfold Sequelize.where_matches; cbn [JS.own_fields forallb fst snd].
  unfold Sequelize.cond_matches. rewrite andb_true_r.
  apply strict_eq_string.
Qed.

Lemma has_email_is_object (v : value) (e : string) :
  JS.prop v "email" = VStr e -> JS.nullish v = false /\ JS.truthy v = true.
Proof. destruct v; cbn; try discriminate; auto. Qed.

(** The earlier [signUp] with an email that a stored row has. *)
Lemma Legacy_signUp_known_email
      (ext : Externals) (user secret row : value) (e : string)
      (w : World Sequelize.Store) :
  JS.prop user "email" = VStr e ->
  Sequelize.lookup (VObj [("email", VStr e)]) (db w) = Some row ->
  Legacy.signUp Sequelize.User ext (VObj [("user", user)]) secret w
  = (inr (Error "Email for current user is already signed up."), w).
Proof.
  intros Hmail Hlook.
  destruct (has_email_is_object _ Hmail) as [Hobj _].
  unfold Legacy.signUp.
  unfold Run.bind at 1, Run.lift at 1.
  cbn [JS.get JS.nullish JS.prop JS.assoc String.eqb Ascii.eqb Bool.eqb].
  unfold Run.bind at 1, Run.lift at 1, JS.get at 1. rewrite Hobj, Hmail.
  unfold Run.bind at 1, Run.call at 1. cbn [findOne Sequelize.User].
  unfold Sequelize.findOne.
  cbn [JS.prop JS.assoc String.eqb Ascii.eqb Bool.eqb].
  rewrite Hlook. cbn [JS.await].
  unfold Sequelize.lookup in Hlook. apply find_some in Hlook.
  destruct Hlook as [_ Hsel].
  apply selected_by_email in Hsel.
  destruct (has_email_is_object _ Hsel) as [_ ->].
  unfold Run.throw. now rewrite world_eta.
Qed.

(** The earlier [signUp] with an email that no stored row has. *)
Lemma Legacy_signUp_fresh_email
      (ext : Externals) (user secret : value) (e : string)
      (w : World Sequelize.Store) :
  JS.prop user "email" = VStr e ->
  Sequelize.lookup (VObj [("email", VStr e)]) (db w) = None ->
  exists row,
    JS.prop row "email" = VStr e
    /\ JS.prop row "password"
       = Sequelize.column_value
           [("password",
             JS.await (encryptPassword ext (JS.prop user "password")))]
           "password"
    /\ Legacy.signUp Sequelize.User ext (VObj [("user", user)]) secret w
       = (inl (VObj [("token", signIn ext (JS.prop row "id") secret);
                     ("user", row)]),
          {| db := {| Sequelize.rows := (Sequelize.rows (db w) ++ [row])%list;
                      Sequelize.next_id :=
                        Datatypes.S (Sequelize.next_id (db w)) |};
             pubsub := Hub.publish USER_ADDED (VObj [("userAdded", row)])
                                   (pubsub w) |}).
Proof.
  intros Hmail Hlook.
  destruct (has_email_is_object _ Hmail) as [Hobj _].
  eexists. split; [| split].
  3: {
  unfold Legacy.signUp.
  unfold Run.bind at 1, Run.lift at 1.
  cbn [JS.get JS.nullish JS.prop JS.assoc String.eqb Ascii.eqb Bool.eqb].
  unfold Run.bind at 1, Run.lift at 1, JS.get at 1. rewrite Hobj, Hmail.
  unfold Run.bind at 1, Run.call at 1. cbn [findOne Sequelize.User].
  unfold Sequelize.findOne.
  cbn [JS.prop JS.assoc String.eqb Ascii.eqb Bool.eqb].
  rewrite Hlook. cbn [JS.await JS.truthy].
  unfold Run.bind at 1, Run.lift at 1, JS.get at 1. rewrite Hobj.
  unfold Run.bind at 1, Run.call at 1. cbn [create Sequelize.User db].
  unfold Sequelize.create, Sequelize.insert. cbn [JS.await JS.own_fields].
  unfold Run.bind at 1, Run.lift at 1.
  unfold JS.get at 1. cbn [JS.nullish Sequelize.new_row].
  unfold Run.bind, Run.publish, Run.ret. cbn [db pubsub].
  unfold signIn. reflexivity. }
  - rewrite new_row_column; [| cbn; tauto | discriminate].
    unfold Sequelize.column_value. rewrite assoc_set_other by reflexivity.
    destruct user; try discriminate. cbn in *.
    destruct (JS.assoc "email" fields); [now subst | discriminate].
  - rewrite new_row_column; [| cbn; tauto | discriminate].
    unfold Sequelize.column_value. now rewrite assoc_set_same.
Qed.

(** The earlier [signInFacebook] when the email lookup selects a row. *)
Lemma Legacy_signInFacebook_claimed
      (ext : Externals) (args secret row : value) (w : World Sequelize.Store) :
  let su := JS.prop args "socialUser" in
  JS.nullish args = false ->
  JS.nullish su = false ->
  JS.truthy (JS.prop su "email") = true ->
  JS.truthy row = true ->
  Sequelize.lookup (JS.prop (facebook_claim su) "where") (db w) = Some row ->
  Legacy.signInFacebook Sequelize.User ext args secret w
  = (inr Failure.EmailAlreadyClaimed, w).
Proof.
  intros su Hargs Hsu Hmail Hrow Hlook. subst su.
  unfold Legacy.signInFacebook, Run.try_catch.
  unfold Run.bind at 1, Run.lift at 1, JS.get at 1. rewrite Hargs.
  unfold Run.bind at 1, Run.lift at 1, JS.get at 1. rewrite Hsu.
  unfold Run.bind at 1. rewrite Hmail.
  unfold Run.bind at 1, Run.call at 1. cbn [findOne Sequelize.User].
  unfold Sequelize.findOne.
  unfold facebook_claim in Hlook.
  cbn [JS.prop JS.assoc String.eqb Ascii.eqb Bool.eqb] in Hlook |- *.
  rewrite Hlook. cbn [JS.await]. rewrite Hrow.
  unfold Run.throw. now rewrite world_eta.
Qed.

(** The earlier [signInFacebook] when the email check passes: the
    answer is made of the pair that the find-or-create resolves to. *)
Lemma Legacy_signInFacebook_steps
      (ext : Externals) (args secret row : value) (created : bool)
      (st1 : Sequelize.Store) (w : World Sequelize.Store) :
  let su := JS.prop args "socialUser" in
  JS.nullish args = false ->
  JS.nullish su = false ->
  (JS.truthy (JS.prop su "email") = true ->
   Sequelize.lookup (JS.prop (facebook_claim su) "where") (db w) = None) ->
  Sequelize.findOrCreate (facebook_options su) (db w)
  = (VPromise (VArr [row; VBool created]), st1) ->
  JS.nullish row = false ->
  Legacy.signInFacebook Sequelize.User ext args secret w
  = (inl (VObj [("token", signIn ext (JS.prop row "id") secret);
                ("user", row)]),
     {| db := st1; pubsub := pubsub w |}).
Proof.
  intros su Hargs Hsu Hfree Hfoc Hrow. subst su.
  unfold Legacy.signInFacebook, Run.try_catch.
  unfold Run.bind at 1, Run.lift at 1, JS.get at 1. rewrite Hargs.
  unfold Run.bind at 1, Run.lift at 1, JS.get at 1. rewrite Hsu.
  unfold Run.bind at 1.
  assert (Hcheck :
    (if JS.truthy (JS.prop (JS.prop args "socialUser") "email")
     then
       Run.bind
         (Run.call
            (findOne Sequelize.User
               (VObj [("where",
                       VObj [("email",
                              JS.prop (JS.prop args "socialUser") "email");
                             ("social", VObj [("$notLike", VStr "facebook%")])]);
                      ("raw", VBool true)])))
         (fun found =>
            if JS.truthy (JS.await found)
            then Run.throw (Error "Email for current user is already signed in")
            else Run.ret tt)
     else Run.ret tt) w = (inl tt, w)).
  { destruct (JS.truthy (JS.prop (JS.prop args "socialUser") "email"));
      [| reflexivity].
    specialize (Hfree eq_refl).
    unfold Run.bind, Run.call. cbn [findOne Sequelize.User].
    unfold Sequelize.findOne.
    unfold facebook_claim in Hfree.
    cbn [JS.prop JS.assoc String.eqb Ascii.eqb Bool.eqb] in Hfree |- *.
    rewrite Hfree. cbn. now rewrite world_eta. }
  rewrite Hcheck.
  unfold Run.bind at 1, Run.call at 1. cbn [findOrCreate Sequelize.User].
  unfold facebook_options, facebook_key in Hfoc. rewrite Hfoc.
  cbn [JS.await].
  unfold Run.bind at 1, Run.lift at 1. cbn [JS.get_index JS.nullish JS.index nth].
  unfold Run.bind at 1, Run.lift at 1, JS.get at 1. rewrite Hrow.
  reflexivity.
Qed.

Lemma is_row_object (row : value) :
  is_row row -> JS.nullish row = false /\ JS.truthy row = true.
Proof. intros [fs [-> _]]. now split. Qed.

Lemma Legacy_signInFacebook_needs_profile
      (ext : Externals) (args secret r : value) (w w1 : World Sequelize.Store) :
  Legacy.signInFacebook Sequelize.User ext args secret w = (inl r, w1) ->
  JS.nullish args = false /\ JS.nullish (JS.prop args "socialUser") = false.
Proof.
  intros Hrun.
  unfold Legacy.signInFacebook, Run.try_catch in Hrun.
  unfold Run.bind at 1, Run.lift at 1, JS.get at 1 in Hrun.
  destruct (JS.nullish args); [discriminate |].
  unfold Run.bind at 1, Run.lift at 1, JS.get at 1 in Hrun.
  destruct (JS.nullish (JS.prop args "socialUser")); [discriminate |].
  now split.
Qed.

(** X12.  The earlier [signInFacebook] creates its account once and finds
    it ever after.  On the Sequelize model with well-formed rows, once a
    Facebook sign-in has succeeded, the same request again succeeds too,
    returns the same account, and leaves the world as the first sign-in
    left it. *)
Theorem Legacy_signInFacebook_finds_the_same_account
        (ext : Externals) (args secret r : value)
        (w w1 : World Sequelize.Store) :
  Forall is_row (Sequelize.rows (db w)) ->
  Legacy.signInFacebook Sequelize.User ext args secret w = (inl r, w1) ->
  exists r',
    Legacy.signInFacebook Sequelize.User ext args secret w1 = (inl r', w1)
    /\ JS.prop r' "user" = JS.prop r "user".
Proof.
  intros Hrows Hrun. exists r. split; [| reflexivity]. revert Hrows Hrun.
  intros Hrows Hrun.
  destruct (Legacy_signInFacebook_needs_profile _ _ _ _ Hrun) as [Hargs Hsu].
  set (su := JS.prop args "socialUser") in *.
  assert (Hfree : JS.truthy (JS.prop su "email") = true ->
                  Sequelize.lookup (JS.prop (facebook_claim su) "where") (db w)
                  = None).
  { intros Hmail.
    destruct (Sequelize.lookup _ (db w)) as [row0 |] eqn:Hlook; [| reflexivity].
    assert (Hin := Hlook). unfold Sequelize.lookup in Hin.
    apply find_some in Hin. destruct Hin as [Hin _].
    rewrite Forall_forall in Hrows.
    destruct (is_row_object (Hrows _ Hin)) as [_ Htruthy].
    rewrite (@Legacy_signInFacebook_claimed ext args secret row0 w
               Hargs Hsu Hmail Htruthy Hlook) in Hrun.
    discriminate. }
  destruct (@findOrCreate_settles (facebook_options su) (facebook_key su)
              (db w) eq_refl eq_refl)
    as [row [created [Hfirst [Hkey [Hsecond Hcase]]]]].
  assert (Hrow : JS.nullish row = false).
  { destruct row; try discriminate; reflexivity. }
  rewrite (@Legacy_signInFacebook_steps ext args secret row created _ w
             Hargs Hsu Hfree Hfirst Hrow) in Hrun.
  injection Hrun as <- <-.
  set (st1 := snd (Sequelize.findOrCreate (facebook_options su) (db w))) in *.
  apply (@Legacy_signInFacebook_steps ext args secret row false st1
           {| db := st1; pubsub := pubsub w |}); auto.
  cbn [db]. change (JS.prop args "socialUser") with su.
  intros Hmail. specialize (Hfree Hmail).
  destruct Hcase as [[_ [_ ->]] | [_ [_ Hrows1]]]; [assumption |].
  unfold Sequelize.lookup in *. rewrite Hrows1.
  rewrite (@find_app_last _ _ _ row Hfree).
  unfold facebook_claim; cbn [JS.prop JS.assoc String.eqb Ascii.eqb Bool.eqb].
  unfold Sequelize.where_matches; cbn [JS.own_fields forallb fst snd].
  rewrite Hkey. unfold facebook_key. cbn.
  now rewrite andb_false_r.
Qed.

(** X13.  The earlier [signUp] on a fresh email.  On the Sequelize model,
    when no stored account has the email of the request, the sign-up
    succeeds: exactly one row is added, with that email and with the hash
    in place of the password; exactly one event is published, on
    [USER_ADDED], carrying that row; and the answer is that row with the
    token [signIn(row.id, appSecret)]. *)
Theorem Legacy_signUp_creates_one_account
        (ext : Externals) (user secret : value) (e : string)
        (w : World Sequelize.Store) :
  JS.prop user "email" = VStr e ->
  Sequelize.lookup (VObj [("email", VStr e)]) (db w) = None ->
  exists row,
    JS.prop row "email" = VStr e
    /\ JS.prop row "password"
       = Sequelize.column_value
           [("password",
             JS.await (encryptPassword ext (JS.prop user "password")))]
           "password"
    /\ Legacy.signUp Sequelize.User ext (VObj [("user", user)]) secret w
       = (inl (VObj [("token", signIn ext (JS.prop row "id") secret);
                     ("user", row)]),
          {| db := {| Sequelize.rows := (Sequelize.rows (db w) ++ [row])%list;
                      Sequelize.next_id :=
                        Datatypes.S (Sequelize.next_id (db w)) |};
             pubsub := Hub.publish USER_ADDED (VObj [("userAdded", row)])
                                   (pubsub w) |}).
Proof. apply Legacy_signUp_fresh_email. Qed.

Lemma Legacy_signUp_creates_one_account_witness :
  exists row,
    JS.prop row "email" = VStr "a@x.com"
    /\ JS.prop row "password" = VStr "hash:p"
    /\ Legacy.signUp Sequelize.User Sample.ext
                     (VObj [("user", Scenario.alice)]) Scenario.secret
                     (Sample.world Sequelize.empty)
       = (inl (VObj [("token",
                      signIn Sample.ext (JS.prop row "id") Scenario.secret);
                     ("user", row)]),
          {| db := {| Sequelize.rows := [row]; Sequelize.next_id := 1 |};
             pubsub := Hub.publish USER_ADDED (VObj [("userAdded", row)])
                                   Hub.empty |}).
Proof.
  exact (@Legacy_signUp_creates_one_account
           Sample.ext Scenario.alice Scenario.secret "a@x.com"
           (Sample.world Sequelize.empty) eq_refl eq_refl).
Defined.

(** X14.  The earlier [signUp] succeeds at most once per email.  On the
    Sequelize model, once a sign-up with an email has succeeded, every
    further sign-up with that email, whatever its other fields and its
    password, is refused with ['Email for current user is already signed
    up.'], and the world stays as the first sign-up left it. *)
Theorem Legacy_signUp_refuses_second
        (ext : Externals) (user user' secret secret' r : value) (e : string)
        (w w1 : World Sequelize.Store) :
  JS.prop user "email" = VStr e ->
  JS.prop user' "email" = VStr e ->
  Legacy.signUp Sequelize.User ext (VObj [("user", user)]) secret w
  = (inl r, w1) ->
  Legacy.signUp Sequelize.User ext (VObj [("user", user')]) secret' w1
  = (inr (Error "Email for current user is already signed up."), w1).
Proof.
  intros Hmail Hmail' Hrun.
  destruct (Sequelize.lookup (VObj [("email", VStr e)]) (db w))
    as [row0 |] eqn:Hlook.
  - rewrite (@Legacy_signUp_known_email ext user secret row0 e w Hmail Hlook)
      in Hrun.
    discriminate.
  - destruct (@Legacy_signUp_fresh_email ext user secret e w Hmail Hlook)
      as [row [Hrow [_ Heq]]].
    rewrite Heq in Hrun. injection Hrun as <- <-.
    apply Legacy_signUp_known_email with (row := row) (e := e); [assumption |].
    unfold Sequelize.lookup in *; cbn [db Sequelize.rows].
    rewrite (@find_app_last _ _ _ row Hlook).
    unfold Sequelize.where_matches; cbn [JS.own_fields forallb fst snd].
    unfold Sequelize.cond_matches. rewrite Hrow; cbn [JS.strict_eq].
    now rewrite String.eqb_refl.
Qed.

Lemma Legacy_signUp_refuses_second_witness :
  Legacy.signUp Sequelize.User Sample.ext (VObj [("user", Scenario.alice')])
                (VStr "other") (after_alice "hash:p")
  = (inr (Error "Email for current user is already signed up."),
     after_alice "hash:p").
Proof.
  exact (@Legacy_signUp_refuses_second
           Sample.ext Scenario.alice Scenario.alice' Scenario.secret
           (VStr "other")
           (VObj [("token", VStr "jwt:user-0:s3cret");
                  ("user", alice_row "hash:p")])
           "a@x.com" (Sample.world Sequelize.empty) (after_alice "hash:p")
           eq_refl eq_refl eq_refl).
Defined.

Lemma Legacy_signInFacebook_finds_the_same_account_witness :
  exists r',
    Legacy.signInFacebook Sequelize.User Sample.ext
      (VObj [("socialUser", Scenario.g1)]) Scenario.secret
      {| db := {| Sequelize.rows := [facebook_g1_row];
                  Sequelize.next_id := 1 |};
         pubsub := Hub.empty |}
    = (inl r',
       {| db := {| Sequelize.rows := [facebook_g1_row];
                   Sequelize.next_id := 1 |};
          pubsub := Hub.empty |})
    /\ JS.prop r' "user"
       = JS.prop (VObj [("token", VStr "jwt:user-0:s3cret");
                        ("user", facebook_g1_row)]) "user".
Proof.
  apply (@Legacy_signInFacebook_finds_the_same_account
           Sample.ext (VObj [("socialUser", Scenario.g1)]) Scenario.secret
           (VObj [("token", VStr "jwt:user-0:s3cret");
                  ("user", facebook_g1_row)])
           (Sample.world Sequelize.empty)).
  - constructor.
  - reflexivity.
Defined.

(** X15.  The earlier [signInFacebook] does check the email.  On the
    Sequelize model with well-formed rows, a Facebook sign-in whose profile
    has an email that a stored account without a [facebook]-prefixed key
    holds is refused with [EmailAlreadyClaimed], before any find-or-create:
    the world is untouched. *)
Theorem Legacy_signInFacebook_rejects_claimed_email
        (ext : Externals) (args secret row : value)
        (w : World Sequelize.Store) :
  Forall is_row (Sequelize.rows (db w)) ->
  JS.nullish args = false ->
  JS.nullish (JS.prop args "socialUser") = false ->
  JS.truthy (JS.prop (JS.prop args "socialUser") "email") = true ->
  Sequelize.lookup
    (JS.prop (facebook_claim (JS.prop args "socialUser")) "where") (db w)
  = Some row ->
  Legacy.signInFacebook Sequelize.User ext args secret w
  = (inr Failure.EmailAlreadyClaimed, w).
Proof.
  intros Hrows Hargs Hsu Hmail Hlook.
  apply Legacy_signInFacebook_claimed with (row := row); try assumption.
  unfold Sequelize.lookup in Hlook. apply find_some in Hlook.
  rewrite Forall_forall in Hrows.
  now destruct (is_row_object (Hrows _ (proj1 Hlook))).
Qed.

Lemma Legacy_signInFacebook_rejects_claimed_email_witness :
  Legacy.signInFacebook Sequelize.User Sample.ext
    (VObj [("socialUser", Scenario.g1_mail)]) Scenario.secret
    (Sample.world social_then_local)
  = (inr Failure.EmailAlreadyClaimed, Sample.world social_then_local).
Proof.
  apply (@Legacy_signInFacebook_rejects_claimed_email
           Sample.ext (VObj [("socialUser", Scenario.g1_mail)])
           Scenario.secret Scenario.u1_row (Sample.world social_then_local));
    try reflexivity.
  repeat constructor; eexists; split; reflexivity.
Defined.

(** ** [getOrSignUp] by the response of the model *)




(** ** The later revision of [updateProfile] *)

(** X17.  The later [updateProfile] turns another identity away as the
    current one does: when the requester's identifier differs from
    [args.user.id] it fails with [Forbidden], and the model is not called
    and nothing is published. *)
Theorem Refactored_updateProfile_by_other_is_forbidden
        {S : Type} (User : UserModel S) (args auth target : value)
        (w : World S) :
  JS.nullish auth = false ->
  JS.get args "user" = inl target ->
  JS.nullish target = false ->
  JS.strict_eq (JS.prop auth "id") (JS.prop target "id") = false ->
  Refactored.updateProfile User args auth w = (inr Failure.Forbidden, w).
Proof.
  intros Hauth Hargs Htarget Hdiff.
  unfold Refactored.updateProfile.
  unfold Run.bind at 1, Run.lift at 1; rewrite Hargs.
  unfold Run.bind at 1, Run.lift at 1, JS.get at 1; rewrite Htarget.
  unfold Run.try_catch, Run.bind at 1, Run.lift at 1.
  unfold Refactored.isValidUser, JS.get. rewrite Hauth, Htarget, Hdiff.
  reflexivity.
Qed.

Lemma Refactored_updateProfile_by_other_is_forbidden_witness :
  Refactored.updateProfile Sequelize.User Scenario.rename_u1 Scenario.as_u2
                           (Sample.world Scenario.with_u1)
  = (inr Failure.Forbidden, Sample.world Scenario.with_u1).
Proof.
  apply (@Refactored_updateProfile_by_other_is_forbidden
           _ Sequelize.User Scenario.rename_u1 Scenario.as_u2
           (VObj [("id", VStr "u1"); ("name", VStr "New")])
           (Sample.world Scenario.with_u1)); reflexivity.
Defined.

(** X18.  The later [updateProfile] answers with the response of
    [User.update], not with an account.  On any model, when it succeeds
    the requester is the owner, the value returned is what the call
    [User.update(args, { where: { id } }, { raw: true })] settled to, the
    storage is as that call left it (the account is not read back), and
    exactly one event is published, on [USER_UPDATED], carrying that same
    value under the key [updatedUser]. *)
Theorem Refactored_updateProfile_answers_update_response
        {S : Type} (User : UserModel S) (args auth r : value)
        (w w' : World S) :
  Refactored.updateProfile User args auth w = (inl r, w') ->
  let target := JS.prop args "user" in
  let response :=
    update User args (VObj [("where", VObj [("id", JS.prop target "id")])])
           (VObj [("raw", VBool true)]) (db w) in
  JS.strict_eq (JS.prop auth "id") (JS.prop target "id") = true
  /\ r = JS.await (fst response)
  /\ db w' = snd response
  /\ pubsub w'
     = Hub.publish USER_UPDATED (VObj [("updatedUser", r)]) (pubsub w).
Proof.
  intros Hrun target response. subst target response.
  unfold Refactored.updateProfile, Refactored.udpateUser,
    Refactored.isValidUser, Run.try_catch, Run.bind, Run.lift, Run.call,
    Run.ret, Run.throw, Run.publish, JS.get in Hrun.
  destruct (JS.nullish args); [discriminate |].
  destruct (JS.nullish (JS.prop args "user")); [discriminate |].
  destruct (JS.nullish auth); [discriminate |].
  destruct (JS.strict_eq _ _); cbn in Hrun; [| discriminate].
  destruct (update User args _ _ (db w)) as [resp st1].
  injection Hrun as <- <-. now repeat split.
Qed.

Lemma Refactored_updateProfile_answers_update_response_witness :
  JS.strict_eq (JS.prop Scenario.as_u1 "id")
               (JS.prop (JS.prop Scenario.rename_u1 "user") "id") = true
  /\ VArr [VNum 0]
     = JS.await
         (fst (update Sequelize.User Scenario.rename_u1
                      (VObj [("where", VObj [("id", VStr "u1")])])
                      (VObj [("raw", VBool true)]) Scenario.with_u1))
  /\ Scenario.with_u1
     = snd (update Sequelize.User Scenario.rename_u1
                   (VObj [("where", VObj [("id", VStr "u1")])])
                   (VObj [("raw", VBool true)]) Scenario.with_u1)
  /\ Hub.publish USER_UPDATED (VObj [("updatedUser", VArr [VNum 0])])
                 Hub.empty
     = Hub.publish USER_UPDATED (VObj [("updatedUser", VArr [VNum 0])])
                   Hub.empty.
Proof.
  exact (@Refactored_updateProfile_answers_update_response
           _ Sequelize.User Scenario.rename_u1 Scenario.as_u1
           (VArr [VNum 0]) (Sample.world Scenario.with_u1)
           {| db := Scenario.with_u1;
              pubsub := Hub.publish USER_UPDATED
                          (VObj [("updatedUser", VArr [VNum 0])])
                          Hub.empty |}
           eq_refl).
Defined.

(** ** The accounts the resolvers create *)





(** A row is created, and satisfies it: the first Google sign-in of native
    id ["g1"] leaves one row, with no email and [verified] [false]. *)
Lemma created_google_row_is_verified_as_email :
  Sequelize.rows
    (db (snd (Mutation.signInGoogle Sequelize.User Sample.ext Scenario.g1
                                    Scenario.secret
                                    (Sample.world Sequelize.empty))))
  = [google_g1_row]
  /\ verified_as_email google_g1_row
  /\ JS.prop google_g1_row "verified" = VBool false.
Proof. repeat split; reflexivity. Qed.
